(** * kinesis_consumer.py: a one-shot Kinesis shard reader

    A shallow embedding of [scripts/kinesis_consumer.py] and the properties of
    its behaviour.  The script parses three command-line flags, asks the
    Kinesis client for a shard iterator at the trim horizon, fetches one
    batch of at most 200 records and prints them as a text table.

    Layout of the development:
    - [PyStr]: Python [str] values as sequences of code points;
    - [Utf8]: [bytes.decode('utf-8')] in strict mode;
    - [Format]: the fragment of [str.format] the script uses;
    - [Argparse]: [ArgumentParser.parse_args] for the three flags;
    - the Kinesis client as the script sees it, and [Run]: computations
      that leave a trace of SDK calls and printed lines and may raise;
    - [sys.stdout] as [print] sees it: the characters it can encode;
    - [main] and [script];
    - the table as it should look, a sample service for concrete runs,
      and then the properties, one theorem for each claim C1 to C10. *)

From Stdlib Require Import List Bool Arith NArith ZArith Lia String Ascii.
From Stdlib Require Strings.Byte.
Import ListNotations.

Set Implicit Arguments.

(* ===================================================================== *)
(** ** Python strings *)
(* ===================================================================== *)

Module PyStr.

(** A Python [str] is a sequence of Unicode code points; [len] counts
    code points, which is what the format widths are measured in. *)
Definition codepoint := N.
Definition pystr := list codepoint.

(** A string literal of the source (ASCII only). *)
Definition lit (s : string) : pystr :=
  List.map N_of_ascii (list_ascii_of_string s).

Fixpoint eqb (s t : pystr) : bool :=
  match s, t with
  | [], [] => true
  | c :: s', d :: t' => N.eqb c d && eqb s' t'
  | _, _ => false
  end.

(** [s.startswith(p)] *)
Fixpoint startswith (s p : pystr) : bool :=
  match p, s with
  | [], _ => true
  | d :: p', c :: s' => N.eqb c d && startswith s' p'
  | _ :: _, [] => false
  end.

(** [c in s] *)
Definition contains (c : codepoint) (s : pystr) : bool :=
  existsb (N.eqb c) s.

(** [s.split(c, 1)] when [c] occurs in [s]: the text before the first
    [c] and the text after it. *)
Fixpoint split1 (c : codepoint) (s : pystr) : option (pystr * pystr) :=
  match s with
  | [] => None
  | d :: s' =>
      if N.eqb d c then Some ([], s')
      else match split1 c s' with
           | Some (a, b) => Some (d :: a, b)
           | None => None
           end
  end.

(** ["c" * n] *)
Definition times (c : codepoint) (n : nat) : pystr := repeat c n.

Definition space : codepoint := 32%N.
Definition dash : codepoint := 45%N.
Definition newline : codepoint := 10%N.
Definition dot : codepoint := 46%N.
Definition equals : codepoint := 61%N.

End PyStr.
Import PyStr.

(** Values that reach the script's variables: the parsed flags are [None]
    when omitted and a [str] otherwise (CPython up to 3.11 also stores the
    empty list for the argument [--flag=--]); everything the service
    returns is a [str]. *)
Inductive pyval :=
| PyNone
| PyStr (s : pystr)
| PyEmptyList.

Definition is_str (v : pyval) : bool :=
  match v with PyStr _ => true | _ => false end.

(* ===================================================================== *)
(** ** [bytes.decode('utf-8')] *)
(* ===================================================================== *)

Module Utf8.

Definition bytes := list Byte.byte.

Definition between (lo hi n : N) : bool := (lo <=? n)%N && (n <=? hi)%N.

(** A continuation byte [10xxxxxx]. *)
Definition continuation (n : N) : bool := between 0x80 0xBF n.

(** The six payload bits of a continuation byte. *)
Definition low6 (n : N) : N := N.land n 0x3F.

Definition join2 (n0 n1 : N) : codepoint :=
  N.lor (N.shiftl (N.land n0 0x1F) 6) (low6 n1).

Definition join3 (n0 n1 n2 : N) : codepoint :=
  N.lor (N.shiftl (N.land n0 0x0F) 12)
        (N.lor (N.shiftl (low6 n1) 6) (low6 n2)).

Definition join4 (n0 n1 n2 n3 : N) : codepoint :=
  N.lor (N.shiftl (N.land n0 0x07) 18)
        (N.lor (N.shiftl (low6 n1) 12)
               (N.lor (N.shiftl (low6 n2) 6) (low6 n3))).

(** The range allowed for the byte that follows a lead byte.  The
    narrowed ranges exclude over-long forms ([E0], [F0]), the surrogates
    U+D800..U+DFFF ([ED]) and code points above U+10FFFF ([F4]). *)
Definition second_ok (n0 n1 : N) : bool :=
  if (n0 =? 0xE0)%N then between 0xA0 0xBF n1
  else if (n0 =? 0xED)%N then between 0x80 0x9F n1
  else if (n0 =? 0xF0)%N then between 0x90 0xBF n1
  else if (n0 =? 0xF4)%N then between 0x80 0x8F n1
  else continuation n1.

(** Strict decoding, as [data.decode('utf-8')] does it: [None] stands
    for the [UnicodeDecodeError] raised at the first ill-formed
    sequence. *)
Fixpoint decode (bs : bytes) : option pystr :=
  match bs with
  | [] => Some []
  | b0 :: r0 =>
      let n0 := Byte.to_N b0 in
      if (n0 <? 0x80)%N then
        option_map (cons n0) (decode r0)
      else if between 0xC2 0xDF n0 then
        match r0 with
        | b1 :: r1 =>
            let n1 := Byte.to_N b1 in
            if continuation n1
            then option_map (cons (join2 n0 n1)) (decode r1)
            else None
        | _ => None
        end
      else if between 0xE0 0xEF n0 then
        match r0 with
        | b1 :: b2 :: r2 =>
            let n1 := Byte.to_N b1 in
            let n2 := Byte.to_N b2 in
            if second_ok n0 n1 && continuation n2
            then option_map (cons (join3 n0 n1 n2)) (decode r2)
            else None
        | _ => None
        end
      else if between 0xF0 0xF4 n0 then
        match r0 with
        | b1 :: b2 :: b3 :: r3 =>
            let n1 := Byte.to_N b1 in
            let n2 := Byte.to_N b2 in
            let n3 := Byte.to_N b3 in
            if second_ok n0 n1 && continuation n2 && continuation n3
            then option_map (cons (join4 n0 n1 n2 n3)) (decode r3)
            else None
        | _ => None
        end
      else None
  end.

Definition valid (bs : bytes) : bool :=
  match decode bs with Some _ => true | None => false end.

(** [s.encode('ascii')] for a literal, to write payloads down. *)
Definition of_lit (s : string) : bytes :=
  List.map byte_of_ascii (list_ascii_of_string s).

End Utf8.

(* ===================================================================== *)
(** ** Exceptions *)
(* ===================================================================== *)

(** The exceptions a run can end with.  The script catches none of them. *)
Inductive exn :=
| SdkError (name : string)   (* raised inside boto3 / botocore *)
| UnicodeDecodeError         (* [bytes.decode] on ill-formed input *)
| UnicodeEncodeError         (* [print] of a character stdout cannot encode *)
| TypeError                  (* [format] of a non-string with a width *)
| ValueError                 (* ill-formed format string *)
| IndexError                 (* more replacement fields than arguments *)
| SystemExit (code : Z).     (* [parser.error] and [--help] *)

Definition result (A : Type) : Type := (exn + A)%type.

(* ===================================================================== *)
(** ** [str.format] *)
(* ===================================================================== *)

Module Format.

Inductive align := AlignLeft | AlignRight | AlignCenter.

(** A format specification [[align][width]]; the fill is the default
    one, a space. *)
Record spec := { sp_align : option align; sp_width : option nat }.

Definition no_spec : spec := {| sp_align := None; sp_width := None |}.

Definition spec_is_empty (sp : spec) : bool :=
  match sp_align sp, sp_width sp with None, None => true | _, _ => false end.

(** A format string is literal text with replacement fields; only
    automatically numbered fields ([{}] and [{:spec}]) are covered. *)
Inductive item :=
| Text (c : codepoint)
| Field (sp : spec).

Inductive pstate :=
| InText
| AfterOpen                                  (* read [{] *)
| AfterClose                                 (* read [}] in text *)
| AfterColon                                 (* read [{:] *)
| InWidth (a : option align) (w : option nat). (* read [{:], align, digits *)

Definition align_of (c : codepoint) : option align :=
  if (c =? 60)%N then Some AlignLeft          (* < *)
  else if (c =? 62)%N then Some AlignRight    (* > *)
  else if (c =? 94)%N then Some AlignCenter   (* ^ *)
  else None.

Definition digit_of (c : codepoint) : option nat :=
  if Utf8.between 48 57 c then Some (N.to_nat (c - 48)) else None.

(** [None]: not a format string of the covered fragment (which includes
    the strings [str.format] rejects with [ValueError]). *)
Fixpoint parse_from (st : pstate) (s : pystr) : option (list item) :=
  match s with
  | [] => match st with InText => Some [] | _ => None end
  | c :: s' =>
      match st with
      | InText =>
          if (c =? 123)%N then parse_from AfterOpen s'
          else if (c =? 125)%N then parse_from AfterClose s'
          else option_map (cons (Text c)) (parse_from InText s')
      | AfterOpen =>
          if (c =? 123)%N then option_map (cons (Text c)) (parse_from InText s')
          else if (c =? 125)%N
               then option_map (cons (Field no_spec)) (parse_from InText s')
          else if (c =? 58)%N then parse_from AfterColon s'
          else None
      | AfterClose =>
          if (c =? 125)%N then option_map (cons (Text c)) (parse_from InText s')
          else None
      | AfterColon =>
          if (c =? 125)%N
          then option_map (cons (Field no_spec)) (parse_from InText s')
          else match align_of c with
               | Some a => parse_from (InWidth (Some a) None) s'
               | None =>
                   match digit_of c with
                   | Some (S d) => parse_from (InWidth None (Some (S d))) s'
                   | _ => None
                   end
               end
      | InWidth a w =>
          if (c =? 125)%N
          then option_map
                 (cons (Field {| sp_align := a; sp_width := w |}))
                 (parse_from InText s')
          else match digit_of c, w with
               | Some d, Some n => parse_from (InWidth a (Some (10 * n + d))) s'
               | Some (S d), None => parse_from (InWidth a (Some (S d))) s'
               | _, _ => None
               end
      end
  end.

Definition parse (fmt : pystr) : option (list item) := parse_from InText fmt.

(** The padding on the left and on the right of [nchars] characters in a
    field of [width]: the field is never narrower than its content, and
    centring puts the odd space on the right. *)
Definition calc_padding (nchars : nat) (width : option nat) (a : align)
  : nat * nat :=
  let n_total :=
    match width with
    | Some w => if w <? nchars then nchars else w
    | None => nchars
    end in
  let n_lpadding :=
    match a with
    | AlignRight => n_total - nchars
    | AlignCenter => (n_total - nchars) / 2
    | AlignLeft => 0
    end in
  (n_lpadding, n_total - nchars - n_lpadding).

(** [format(s, spec)] for a string [s]; strings align left by default. *)
Definition format_str (sp : spec) (s : pystr) : pystr :=
  let a := match sp_align sp with Some a => a | None => AlignLeft end in
  let '(l, r) := calc_padding (List.length s) (sp_width sp) a in
  times space l ++ s ++ times space r.

(** [format(v, spec)]: [None] and lists inherit [object.__format__],
    which accepts the empty specification only. *)
Definition format_value (sp : spec) (v : pyval) : result pystr :=
  match v with
  | PyStr s => inr (format_str sp s)
  | PyNone => if spec_is_empty sp then inr (lit "None") else inl TypeError
  | PyEmptyList => if spec_is_empty sp then inr (lit "[]") else inl TypeError
  end.

(** The fields are filled from left to right; the first failure is the
    one raised.  Surplus arguments are ignored. *)
Fixpoint render (items : list item) (args : list pyval) : result pystr :=
  match items with
  | [] => inr []
  | Text c :: items' =>
      match render items' args with
      | inr t => inr (c :: t)
      | inl e => inl e
      end
  | Field sp :: items' =>
      match args with
      | [] => inl IndexError
      | v :: args' =>
          match format_value sp v with
          | inl e => inl e
          | inr s =>
              match render items' args' with
              | inr t => inr (s ++ t)
              | inl e => inl e
              end
          end
      end
  end.

(** [fmt.format(a, b, ...)] *)
Definition format (fmt : pystr) (args : list pyval) : result pystr :=
  match parse fmt with
  | Some items => render items args
  | None => inl ValueError
  end.

End Format.

(* ===================================================================== *)
(** ** [argparse] *)
(* ===================================================================== *)

(** [ArgumentParser.parse_args] for the parser the script builds: the
    [-h]/[--help] action every parser gets and three [store] options, none
    of them required.  The model follows CPython 3.11's [argparse]. *)
Module Argparse.

Inductive dest := StreamName | ShardId | Region.

Inductive action :=
| Help               (* [-h], [--help]: no argument *)
| Store (d : dest).  (* [add_argument('--x')]: one argument *)

(** [parser._option_string_actions], in insertion order. *)
Definition option_string_actions : list (pystr * action) :=
  [ (lit "-h", Help);
    (lit "--help", Help);
    (lit "--stream-name", Store StreamName);
    (lit "--shard-id", Store ShardId);
    (lit "--region", Store Region) ].

Definition lookup (s : pystr) : option action :=
  option_map snd (find (fun p => PyStr.eqb (fst p) s) option_string_actions).

(** The namespace [parse_args] returns: every destination starts out as
    [None]. *)
Record Namespace := {
  stream_name : pyval;
  shard_id : pyval;
  region : pyval
}.

Definition empty_namespace : Namespace :=
  {| stream_name := PyNone; shard_id := PyNone; region := PyNone |}.

(** [setattr(namespace, dest, value)] *)
Definition setattr (ns : Namespace) (d : dest) (v : pyval) : Namespace :=
  match d with
  | StreamName =>
      {| stream_name := v; shard_id := shard_id ns; region := region ns |}
  | ShardId =>
      {| stream_name := stream_name ns; shard_id := v; region := region ns |}
  | Region =>
      {| stream_name := stream_name ns; shard_id := shard_id ns; region := v |}
  end.

(** The characters [\d] matches in a [str] pattern: the Unicode decimal
    digits (Unicode 14.0), as inclusive ranges. *)
Definition decimal_ranges : list (N * N) :=
  [(0x30, 0x39); (0x660, 0x669); (0x6F0, 0x6F9); (0x7C0, 0x7C9);
   (0x966, 0x96F); (0x9E6, 0x9EF); (0xA66, 0xA6F); (0xAE6, 0xAEF);
   (0xB66, 0xB6F); (0xBE6, 0xBEF); (0xC66, 0xC6F); (0xCE6, 0xCEF);
   (0xD66, 0xD6F); (0xDE6, 0xDEF); (0xE50, 0xE59); (0xED0, 0xED9);
   (0xF20, 0xF29); (0x1040, 0x1049); (0x1090, 0x1099); (0x17E0, 0x17E9);
   (0x1810, 0x1819); (0x1946, 0x194F); (0x19D0, 0x19D9);
   (0x1A80, 0x1A89); (0x1A90, 0x1A99); (0x1B50, 0x1B59);
   (0x1BB0, 0x1BB9); (0x1C40, 0x1C49); (0x1C50, 0x1C59);
   (0xA620, 0xA629); (0xA8D0, 0xA8D9); (0xA900, 0xA909);
   (0xA9D0, 0xA9D9); (0xA9F0, 0xA9F9); (0xAA50, 0xAA59);
   (0xABF0, 0xABF9); (0xFF10, 0xFF19); (0x104A0, 0x104A9);
   (0x10D30, 0x10D39); (0x11066, 0x1106F); (0x110F0, 0x110F9);
   (0x11136, 0x1113F); (0x111D0, 0x111D9); (0x112F0, 0x112F9);
   (0x11450, 0x11459); (0x114D0, 0x114D9); (0x11650, 0x11659);
   (0x116C0, 0x116C9); (0x11730, 0x11739); (0x118E0, 0x118E9);
   (0x11950, 0x11959); (0x11C50, 0x11C59); (0x11D50, 0x11D59);
   (0x11DA0, 0x11DA9); (0x16A60, 0x16A69); (0x16AC0, 0x16AC9);
   (0x16B50, 0x16B59); (0x1D7CE, 0x1D7FF); (0x1E140, 0x1E149);
   (0x1E2F0, 0x1E2F9); (0x1E950, 0x1E959); (0x1FBF0, 0x1FBF9)]%N.

Definition is_decimal (c : codepoint) : bool :=
  existsb (fun r => Utf8.between (fst r) (snd r) c) decimal_ranges.

Definition digits (s : pystr) : bool := forallb is_decimal s.

Definition nonempty (s : pystr) : bool :=
  match s with [] => false | _ :: _ => true end.

(** What [$] allows at the end of the subject: one final newline. *)
Fixpoint chomp (s : pystr) : pystr :=
  match s with
  | [] => []
  | [c] => if (c =? newline)%N then [] else [c]
  | c :: s' => c :: chomp s'
  end.

(** [parser._negative_number_matcher.match(arg)], the pattern being
    [^-\d+$|^-\d*\.\d+$]. *)
Definition negative_number (arg : pystr) : bool :=
  match chomp arg with
  | c :: r =>
      (c =? dash)%N &&
      ((nonempty r && digits r) ||
       match split1 dot r with
       | Some (a, b) => digits a && nonempty b && digits b
       | None => false
       end)
  | [] => false
  end.

(** What [_parse_optional] makes of one argument string. *)
Inductive parsed :=
| NotOptional        (* returns [None]: a positional argument *)
| OptionTuple (a : option action) (option_string : pystr)
              (explicit_arg : option pystr)
| Ambiguous.         (* [self.error]: several options match *)

(** [_get_option_tuples]: the options an abbreviation can stand for.
    [arg] has at least two characters and starts with a dash. *)
Definition get_option_tuples (arg : pystr) : list parsed :=
  match arg with
  | _ :: c1 :: rest =>
      if (c1 =? dash)%N then
        let '(option_prefix, explicit_arg) :=
          match split1 equals arg with
          | Some (a, b) => (a, Some b)
          | None => (arg, None)
          end in
        flat_map
          (fun p =>
             if startswith (fst p) option_prefix
             then [OptionTuple (Some (snd p)) (fst p) explicit_arg]
             else [])
          option_string_actions
      else
        let short_option_prefix := firstn 2 arg in
        let short_explicit_arg := rest in
        flat_map
          (fun p =>
             if PyStr.eqb (fst p) short_option_prefix
             then [OptionTuple (Some (snd p)) (fst p) (Some short_explicit_arg)]
             else if startswith (fst p) arg
             then [OptionTuple (Some (snd p)) (fst p) None]
             else [])
          option_string_actions
  | _ => []
  end.

Definition parse_optional (arg : pystr) : parsed :=
  match arg with
  | [] => NotOptional
  | c0 :: _ =>
      if negb (c0 =? dash)%N then NotOptional
      else
        match lookup arg with
        | Some a => OptionTuple (Some a) arg None
        | None =>
            if List.length arg =? 1 then NotOptional
            else
              let with_equals :=
                match split1 equals arg with
                | Some (option_string, explicit_arg) =>
                    match lookup option_string with
                    | Some a =>
                        Some (OptionTuple (Some a) option_string
                                          (Some explicit_arg))
                    | None => None
                    end
                | None => None
                end in
              match with_equals with
              | Some t => t
              | None =>
                  match get_option_tuples arg with
                  | _ :: _ :: _ => Ambiguous
                  | [t] => t
                  | [] =>
                      if negative_number arg then NotOptional
                      else if contains space arg then NotOptional
                      else OptionTuple None arg None
                  end
              end
        end
  end.

(** The first pass of [_parse_known_args] marks every argument string:
    ['O'] for an option, ['A'] for an argument, ['-'] for the first
    [--], after which everything is an argument. *)
Inductive mark :=
| MarkO (arg : pystr) (a : option action) (option_string : pystr)
        (explicit_arg : option pystr)
| MarkA (arg : pystr)
| MarkDashes.

(** [None]: the pass ended in [parser.error]. *)
Fixpoint classify (arg_strings : list pystr) : option (list mark) :=
  match arg_strings with
  | [] => Some []
  | arg :: rest =>
      if PyStr.eqb arg (lit "--") then Some (MarkDashes :: List.map MarkA rest)
      else
        match parse_optional arg with
        | Ambiguous => None
        | NotOptional => option_map (cons (MarkA arg)) (classify rest)
        | OptionTuple a os e =>
            option_map (cons (MarkO arg a os e)) (classify rest)
        end
  end.

Inductive outcome :=
| Parsed (ns : Namespace)
| Exited (code : Z).   (* [--help] exits with 0, [parser.error] with 2 *)

(** [_get_values] for one argument string and [nargs=None]: the string
    itself, except that a first [--] is stripped, which leaves the empty
    list. *)
Definition get_values (arg : pystr) : pyval :=
  if PyStr.eqb arg (lit "--") then PyEmptyList else PyStr arg.

(** The rest of a single-dash option string whose action takes no
    argument is read as more single-dash options: [-hh] is [-h -h]. *)
Fixpoint more_short_options (explicit_arg : pystr) : outcome :=
  match explicit_arg with
  | [] => Exited 0
  | c :: rest =>
      match lookup [dash; c] with
      | Some Help => more_short_options rest
      | _ => Exited 2
      end
  end.

(** The second pass: options are consumed from left to right, each
    [store] option taking the explicit argument or else the one
    following argument; whatever is left over ends up in [extras]. *)
Fixpoint consume (marks : list mark) (ns : Namespace) (extras : list pystr)
  : outcome :=
  match marks with
  | [] =>
      match extras with
      | [] => Parsed ns
      | _ :: _ => Exited 2
      end
  | MarkA arg :: marks' => consume marks' ns (extras ++ [arg])
  | MarkDashes :: marks' => consume marks' ns (extras ++ [lit "--"])
  | MarkO arg None _ _ :: marks' => consume marks' ns (extras ++ [arg])
  | MarkO _ (Some Help) _ None :: _ => Exited 0
  | MarkO _ (Some Help) option_string (Some explicit_arg) :: _ =>
      match option_string, explicit_arg with
      | _ :: c1 :: _, _ :: _ =>
          if negb (c1 =? dash)%N then more_short_options explicit_arg
          else Exited 2
      | _, _ => Exited 2
      end
  | MarkO _ (Some (Store d)) _ (Some explicit_arg) :: marks' =>
      consume marks' (setattr ns d (get_values explicit_arg)) extras
  | MarkO _ (Some (Store d)) _ None :: marks' =>
      match marks' with
      | MarkA arg :: marks'' =>
          consume marks'' (setattr ns d (get_values arg)) extras
      | _ => Exited 2
      end
  end.

(** [parser.parse_args(argv)], [argv] being [sys.argv[1:]]. *)
Definition parse_args (argv : list pystr) : outcome :=
  match classify argv with
  | Some marks => consume marks empty_namespace []
  | None => Exited 2
  end.

End Argparse.

(* ===================================================================== *)
(** ** The Kinesis client *)
(* ===================================================================== *)

(** The values [ShardIteratorType] can take. *)
Inductive ShardIteratorType :=
| AT_SEQUENCE_NUMBER
| AFTER_SEQUENCE_NUMBER
| TRIM_HORIZON
| LATEST
| AT_TIMESTAMP.

(** One entry of [response['Records']]. *)
Record KinesisRecord := {
  SequenceNumber : pystr;
  Data : Utf8.bytes;
  PartitionKey : pystr
}.

Record GetShardIteratorOutput := {
  ShardIterator : pystr
}.

Record GetRecordsOutput := {
  Records : list KinesisRecord;
  NextShardIterator : option pystr;
  MillisBehindLatest : Z
}.

(** A call into the SDK either returns or raises; the exception is named
    by its class ([ParamValidationError], [ResourceNotFoundException],
    [ExpiredIteratorException], [NoRegionError], ...). *)
Definition sdk_result (A : Type) : Type := (string + A)%type.

(** The client object, seen from the script: what each of the two calls
    answers.  The service behind it is not part of the program. *)
Record KinesisClient := {
  get_shard_iterator :
    pyval -> pyval -> ShardIteratorType -> sdk_result GetShardIteratorOutput;
  get_records : pystr -> Z -> sdk_result GetRecordsOutput
}.

(** The [boto3] module: [boto3.client(service, region_name=...)]. *)
Record Boto3 := {
  client : pystr -> pyval -> sdk_result KinesisClient
}.

(* ===================================================================== *)
(** ** Runs: traces and exceptions *)
(* ===================================================================== *)

Inductive request :=
| ReqClient (service : pystr) (region_name : pyval)
| ReqGetShardIterator (StreamName ShardId : pyval) (type : ShardIteratorType)
| ReqGetRecords (shard_iterator : pystr) (Limit : Z).

(** What a call handed back, as far as it is data. *)
Inductive returned :=
| RetClient
| RetShardIterator (out : GetShardIteratorOutput)
| RetRecords (out : GetRecordsOutput).

Inductive reply :=
| Returned (v : returned)
| Raised (name : string).

(** What a run does that can be observed from outside. *)
Inductive event :=
| EvCall (rq : request) (rp : reply)  (* a call into boto3 and how it ended *)
| EvPrint (line : pystr)              (* [print(line)] *)
| EvHelp                              (* argparse's help text, on stdout *)
| EvUsage.                            (* argparse's usage and error, on stderr *)

Module Run.

(** A computation yields the events it produced, in order, and either a
    value or the exception that stopped it. *)
Definition M (A : Type) : Type := (list event * result A)%type.

Definition ret {A} (a : A) : M A := ([], inr a).

Definition bind {A B} (m : M A) (k : A -> M B) : M B :=
  match snd m with
  | inl e => (fst m, inl e)
  | inr a => (fst m ++ fst (k a), snd (k a))
  end.

Definition emit (ev : event) : M unit := ([ev], inr tt).

Definition raise {A} (e : exn) : M A := ([], inl e).

(** A pure computation that may raise. *)
Definition lift {A} (r : result A) : M A := ([], r).

(** [for x in l: body(x)] *)
Fixpoint for_each {A} (l : list A) (body : A -> M unit) : M unit :=
  match l with
  | [] => ret tt
  | x :: l' => bind (body x) (fun _ => for_each l' body)
  end.

Definition trace {A} (m : M A) : list event := fst m.
Definition outcome {A} (m : M A) : result A := snd m.

End Run.
Import Run.

Declare Scope run_scope.
Delimit Scope run_scope with run.
Notation "x <- m ;; k" := (Run.bind m (fun x => k))
  (at level 61, m at next level, right associativity) : run_scope.
Notation "m ;; k" := (Run.bind m (fun _ => k))
  (at level 61, right associativity) : run_scope.
Open Scope run_scope.

(** A call into the SDK: the call and its ending are recorded, and a
    failure is raised as an exception. *)
Definition sdk_call {A} (rq : request) (data : A -> returned)
    (r : sdk_result A) : M A :=
  match r with
  | inr a => emit (EvCall rq (Returned (data a))) ;; ret a
  | inl name => emit (EvCall rq (Raised name)) ;; raise (SdkError name)
  end.

Definition call_client (boto3 : Boto3) (service : pystr) (region_name : pyval)
  : M KinesisClient :=
  sdk_call (ReqClient service region_name) (fun _ => RetClient)
           (client boto3 service region_name).

Definition call_get_shard_iterator (kinesis : KinesisClient)
    (StreamName ShardId : pyval) (type : ShardIteratorType)
  : M GetShardIteratorOutput :=
  sdk_call (ReqGetShardIterator StreamName ShardId type) RetShardIterator
           (get_shard_iterator kinesis StreamName ShardId type).

Definition call_get_records (kinesis : KinesisClient)
    (shard_iterator : pystr) (Limit : Z)
  : M GetRecordsOutput :=
  sdk_call (ReqGetRecords shard_iterator Limit) RetRecords
           (get_records kinesis shard_iterator Limit).

(** ** [sys.stdout] and [print] *)

(** A Unicode scalar value is a code point up to U+10FFFF that is not a
    surrogate. *)
Definition scalar (c : codepoint) : bool :=
  (c <? 0xD800)%N || ((0xDFFF <? c)%N && (c <? 0x110000)%N).

(** The text stream [print] writes to, as far as the script depends on
    it: which characters the codec of the stream encodes under the error
    handler of the stream.  Both are fixed when the interpreter starts
    (locale, [PYTHONIOENCODING], redirection), not by the script.  The
    codecs a standard stream is opened with all encode the ASCII
    characters; [extended] says which characters beyond ASCII the stream
    takes. *)
Record TextIO := {
  extended : codepoint -> bool
}.

Definition encodable (file : TextIO) (c : codepoint) : bool :=
  (c <? 0x80)%N || extended file c.

(** A string the stream can encode in full. *)
Definition writable (file : TextIO) (s : pystr) : bool :=
  forallb (encodable file) s.

(** [print(line)]: the line is encoded as a whole before any of it
    reaches the buffer of the stream, so a line with a character the
    stream cannot encode raises and leaves nothing behind; the newline
    that ends the line is ASCII. *)
Definition print (file : TextIO) (line : pystr) : M unit :=
  if writable file line then emit (EvPrint line)
  else raise UnicodeEncodeError.

(** [data.decode('utf-8')] *)
Definition decode_utf8 (data : Utf8.bytes) : M pystr :=
  match Utf8.decode data with
  | Some s => ret s
  | None => raise UnicodeDecodeError
  end.

(* ===================================================================== *)
(** ** The script *)
(* ===================================================================== *)

(** [main(args)], statement by statement. *)
Definition main (stdout : TextIO) (boto3 : Boto3) (args : Argparse.Namespace)
  : M unit :=
  let stream_name := Argparse.stream_name args in
  let shard_id := Argparse.shard_id args in
  let aws_region := Argparse.region args in
  kinesis <- call_client boto3 (lit "kinesis") aws_region ;;
  itr_response <-
    call_get_shard_iterator kinesis stream_name shard_id TRIM_HORIZON ;;
  let shard_itr := ShardIterator itr_response in
  records_response <- call_get_records kinesis shard_itr 200 ;;
  let fmt := lit "{:^20} {:^60} {:<40}" in
  header <- lift (Format.format fmt [PyStr (lit "Shard");
                                     PyStr (lit "Position");
                                     PyStr (lit "Message")]) ;;
  print stdout header ;;
  rule <- lift (Format.format fmt [PyStr (times dash 20);
                                   PyStr (times dash 60);
                                   PyStr (times dash 40)]) ;;
  print stdout rule ;;
  for_each (Records records_response) (fun record =>
    message <- decode_utf8 (Data record) ;;
    row <- lift (Format.format fmt [shard_id;
                                    PyStr (SequenceNumber record);
                                    PyStr message]) ;;
    print stdout row).

(** The [__main__] block: build the parser, parse [sys.argv[1:]], call
    [main].  When the parser exits, [main] is not reached. *)
Definition script (stdout : TextIO) (boto3 : Boto3) (argv : list pystr)
  : M unit :=
  args <- match Argparse.parse_args argv with
          | Argparse.Parsed ns => ret ns
          | Argparse.Exited code =>
              emit (if (code =? 0)%Z then EvHelp else EvUsage) ;;
              raise (SystemExit code)
          end ;;
  main stdout boto3 args.

(* ===================================================================== *)
(** ** What a run printed and which calls it made *)
(* ===================================================================== *)

(** The lines written by [print], in order. *)
Fixpoint printed (t : list event) : list pystr :=
  match t with
  | [] => []
  | EvPrint line :: t' => line :: printed t'
  | _ :: t' => printed t'
  end.

(** Standard output as text: every printed line is followed by a newline. *)
Definition stdout_text (t : list event) : pystr :=
  flat_map (fun line => line ++ [newline]) (printed t).

(** The calls into the SDK, in order. *)
Fixpoint calls (t : list event) : list (request * reply) :=
  match t with
  | [] => []
  | EvCall rq rp :: t' => (rq, rp) :: calls t'
  | _ :: t' => calls t'
  end.

Definition is_get_records (c : request * reply) : bool :=
  match fst c with ReqGetRecords _ _ => true | _ => false end.

(* ===================================================================== *)
(** ** The table, as it should look *)
(* ===================================================================== *)

Definition center20 : Format.spec :=
  {| Format.sp_align := Some Format.AlignCenter; Format.sp_width := Some 20 |}.
Definition center60 : Format.spec :=
  {| Format.sp_align := Some Format.AlignCenter; Format.sp_width := Some 60 |}.
Definition left40 : Format.spec :=
  {| Format.sp_align := Some Format.AlignLeft; Format.sp_width := Some 40 |}.

(** A row of the table: three fields separated by single spaces. *)
Definition table_row (shard position message : pystr) : pystr :=
  Format.format_str center20 shard ++ [space] ++
  Format.format_str center60 position ++ [space] ++
  Format.format_str left40 message.

Definition header_row : pystr :=
  lit "       Shard                                   Position                           Message                                 ".

Definition separator_row : pystr :=
  lit "-------------------- ------------------------------------------------------------ ----------------------------------------".

(** The text of the row for one record, or the exception its rendering
    raises: the payload is decoded before the row is formatted. *)
Definition row_text (shard_id : pyval) (record : KinesisRecord)
  : result pystr :=
  match Utf8.decode (Data record) with
  | None => inl UnicodeDecodeError
  | Some message =>
      Format.format (lit "{:^20} {:^60} {:<40}")
                    [shard_id; PyStr (SequenceNumber record); PyStr message]
  end.

(** One turn of the loop: the row that is printed for a record, or the
    exception that ends the run there, raised by the rendering of the row
    or by [print]. *)
Definition row_out (stdout : TextIO) (shard_id : pyval) (record : KinesisRecord)
  : result pystr :=
  match row_text shard_id record with
  | inl e => inl e
  | inr row => if writable stdout row then inr row else inl UnicodeEncodeError
  end.

(** The rows the loop prints for a batch, up to the first record at
    which it raises, and how the loop ends. *)
Fixpoint rows_printed (stdout : TextIO) (shard_id : pyval)
    (records : list KinesisRecord) : list pystr * result unit :=
  match records with
  | [] => ([], inr tt)
  | record :: records' =>
      match row_out stdout shard_id record with
      | inl e => ([], inl e)
      | inr row =>
          (row :: fst (rows_printed stdout shard_id records'),
           snd (rows_printed stdout shard_id records'))
      end
  end.

(** The payload as text, for records whose payload is well-formed. *)
Definition message_of (record : KinesisRecord) : pystr :=
  match Utf8.decode (Data record) with
  | Some message => message
  | None => []
  end.

(** The values a record shows can all be written. *)
Definition shows_writable (stdout : TextIO) (r : KinesisRecord) : Prop :=
  writable stdout (SequenceNumber r) = true /\
  writable stdout (message_of r) = true.

(** The output holds, behind the header and the separator, exactly one
    row for each record of the batch, in order: the row of the shard id,
    the sequence number of the record and its payload decoded as UTF-8. *)
Definition one_row_per_record (m : M unit) (sid : pystr)
    (records : list KinesisRecord) : Prop :=
  exists rows,
    printed (trace m) = header_row :: separator_row :: rows /\
    List.length rows = List.length records /\
    forall i r,
      nth_error records i = Some r ->
      exists message,
        Utf8.decode (Data r) = Some message /\
        nth_error rows i = Some (table_row sid (SequenceNumber r) message).

(** A row whose three columns are exactly 20, 60 and 40 characters wide. *)
Definition fixed_widths (row : pystr) : Prop :=
  exists c1 c2 c3,
    row = c1 ++ [space] ++ c2 ++ [space] ++ c3 /\
    List.length c1 = 20 /\ List.length c2 = 60 /\ List.length c3 = 40.

(** The events of the three calls when each of them returns. *)
Definition ev_client (args : Argparse.Namespace) : event :=
  EvCall (ReqClient (lit "kinesis") (Argparse.region args)) (Returned RetClient).

Definition ev_iterator (args : Argparse.Namespace)
    (it : GetShardIteratorOutput) : event :=
  EvCall (ReqGetShardIterator (Argparse.stream_name args)
                              (Argparse.shard_id args) TRIM_HORIZON)
         (Returned (RetShardIterator it)).

Definition ev_records (it : GetShardIteratorOutput) (rp : reply) : event :=
  EvCall (ReqGetRecords (ShardIterator it) 200) rp.

(* ===================================================================== *)
(** ** A sample service, for concrete runs *)
(* ===================================================================== *)

Definition sample_record (sequence_number payload : string) : KinesisRecord :=
  {| SequenceNumber := lit sequence_number;
     Data := Utf8.of_lit payload;
     PartitionKey := lit "pk" |}.

(** A record whose payload is the lone continuation byte [0x80]. *)
Definition broken_record (sequence_number : string) : KinesisRecord :=
  {| SequenceNumber := lit sequence_number;
     Data := [Byte.x80];
     PartitionKey := lit "pk" |}.

(** A client that validates its parameters the way botocore does (a
    parameter that is not a [str] is refused before anything is sent),
    hands out the cursor [abc123] and answers every fetch with
    [records]. *)
Definition sample_client (records : list KinesisRecord) : KinesisClient :=
  {| get_shard_iterator := fun StreamName ShardId _ =>
       if is_str StreamName && is_str ShardId
       then inr {| ShardIterator := lit "abc123" |}
       else inl "ParamValidationError"%string;
     get_records := fun _ _ =>
       inr {| Records := records;
              NextShardIterator := Some (lit "def456");
              MillisBehindLatest := 0 |} |}.

Definition sample_boto3 (records : list KinesisRecord) : Boto3 :=
  {| client := fun _ _ => inr (sample_client records) |}.

(** A client whose shard lookup fails. *)
Definition unknown_shard_boto3 : Boto3 :=
  {| client := fun _ _ =>
       inr {| get_shard_iterator := fun _ _ _ =>
                inl "ResourceNotFoundException"%string;
              get_records := fun _ _ =>
                inr {| Records := [];
                       NextShardIterator := None;
                       MillisBehindLatest := 0 |} |} |}.

(** A client that accepts whatever it is given, as a test double does. *)
Definition lenient_boto3 (records : list KinesisRecord) : Boto3 :=
  {| client := fun _ _ =>
       inr {| get_shard_iterator := fun _ _ _ =>
                inr {| ShardIterator := lit "abc123" |};
              get_records := fun _ _ =>
                inr {| Records := records;
                       NextShardIterator := None;
                       MillisBehindLatest := 0 |} |} |}.

(** Standard output opened as UTF-8 with the strict error handler: every
    scalar value is encoded, a lone surrogate is not. *)
Definition utf8_stdout : TextIO := {| extended := scalar |}.

(** Standard output opened as ASCII with the strict error handler. *)
Definition ascii_stdout : TextIO := {| extended := fun _ => false |}.

Definition sample_args : Argparse.Namespace :=
  {| Argparse.stream_name := PyStr (lit "orders");
     Argparse.shard_id := PyStr (lit "shardId-0001");
     Argparse.region := PyStr (lit "us-east-1") |}.

(** All-or-nothing output: the run ended normally, or it printed
    nothing. *)
Definition all_or_nothing (m : M unit) : Prop :=
  outcome m = inr tt \/ printed (trace m) = [].

(** A row of three columns separated by single spaces, each column at
    least as wide as the format asks. *)
Definition minimum_widths (row : pystr) : Prop :=
  exists c1 c2 c3,
    row = c1 ++ [space] ++ c2 ++ [space] ++ c3 /\
    20 <= List.length c1 /\ 60 <= List.length c2 /\ 40 <= List.length c3.

(** A payload of 41 characters. *)
Definition long_payload : string :=
  "0123456789012345678901234567890123456789X".

(** What the script leaves fixed in its calls, whatever the command line:
    the iterator type, with the stream and the shard as parsed, and the
    limit. *)
Definition fixed_parameters (argv : list pystr) (c : request * reply) : Prop :=
  match fst c with
  | ReqClient _ _ => True
  | ReqGetShardIterator StreamName ShardId type =>
      type = TRIM_HORIZON /\
      exists args,
        Argparse.parse_args argv = Argparse.Parsed args /\
        StreamName = Argparse.stream_name args /\
        ShardId = Argparse.shard_id args
  | ReqGetRecords _ Limit => Limit = 200%Z
  end.

(* ===================================================================== *)
(** ** Command lines that leave flags out *)
(* ===================================================================== *)

(** [--name value] when the flag is given, nothing when it is left out. *)
Definition flag (name : string) (value : option pystr) : list pystr :=
  match value with
  | Some v => [lit name; v]
  | None => []
  end.

Definition command_line (stream shard region : option pystr) : list pystr :=
  flag "--stream-name" stream ++ flag "--shard-id" shard ++
  flag "--region" region.

(** The value the script sees for a flag. *)
Definition given (value : option pystr) : pyval :=
  match value with
  | Some v => PyStr v
  | None => PyNone
  end.

(** A value argparse reads as an argument whatever it is otherwise: it
    does not start with a dash. *)
Definition plain (value : option pystr) : bool :=
  match value with
  | Some (c :: _) => negb (c =? dash)%N
  | _ => true
  end.

(** The marks of a flag that is given. *)
Definition flag_marks (name : string) (d : Argparse.dest)
    (value : option pystr) : list Argparse.mark :=
  match value with
  | Some v =>
      [Argparse.MarkO (lit name) (Some (Argparse.Store d)) (lit name) None;
       Argparse.MarkA v]
  | None => []
  end.

(** Every failure of the run comes out of a call into the SDK: the run
    ends normally or with the exception a call raised. *)
Definition fails_only_in_calls (m : M unit) : Prop :=
  forall e,
    outcome m = inl e ->
    exists rq name, In (EvCall rq (Raised name)) (trace m) /\ e = SdkError name.

(** The SDK validates the parameters of a call before sending anything:
    [get_shard_iterator] with a [StreamName] or a [ShardId] that is not a
    [str] raises. *)
Definition validates_parameters (boto3 : Boto3) : Prop :=
  forall service region_name kinesis StreamName ShardId type,
    client boto3 service region_name = inr kinesis ->
    is_str StreamName && is_str ShardId = false ->
    exists name,
      get_shard_iterator kinesis StreamName ShardId type = inl name.

(* ===================================================================== *)
(** ** The calls of a run, as planned *)
(* ===================================================================== *)

(** The three calls [main] makes when none of them raises, for the cursor
    the second one returns. *)
Definition call_plan (args : Argparse.Namespace) (cursor : pystr)
  : list request :=
  [ReqClient (lit "kinesis") (Argparse.region args);
   ReqGetShardIterator (Argparse.stream_name args) (Argparse.shard_id args)
                       TRIM_HORIZON;
   ReqGetRecords cursor 200].

Definition call_event (c : request * reply) : event := EvCall (fst c) (snd c).

Definition has_returned (c : request * reply) : Prop :=
  exists v, snd c = Returned v.

(** What of a record reaches the output. *)
Definition shown (r : KinesisRecord) : pystr * Utf8.bytes :=
  (SequenceNumber r, Data r).

(** The number of newline characters in a string. *)
Definition newlines (s : pystr) : nat := count_occ N.eq_dec s newline.

(* ===================================================================== *)
(** ** Arguments the parser does not take *)
(* ===================================================================== *)

(** An argument string that is no flag of the script and cannot be the
    value of one: [--], [-h] or [--help] in any spelling, an option the
    parser does not know, an ambiguous abbreviation. *)
Definition stops_the_parser (arg : pystr) : bool :=
  PyStr.eqb arg (lit "--") ||
  match Argparse.parse_optional arg with
  | Argparse.NotOptional => false
  | Argparse.OptionTuple (Some (Argparse.Store _)) _ _ => false
  | Argparse.OptionTuple (Some Argparse.Help) _ _ => true
  | Argparse.OptionTuple None _ _ => true
  | Argparse.Ambiguous => true
  end.

(** The marks of such arguments. *)
Definition stops (m : Argparse.mark) : bool :=
  match m with
  | Argparse.MarkDashes => true
  | Argparse.MarkO _ None _ _ => true
  | Argparse.MarkO _ (Some Argparse.Help) _ _ => true
  | Argparse.MarkO _ (Some (Argparse.Store _)) _ _ => false
  | Argparse.MarkA _ => false
  end.

(** The three flags with their destinations. *)
Definition flags : list (string * Argparse.dest) :=
  [("--stream-name"%string, Argparse.StreamName);
   ("--shard-id"%string, Argparse.ShardId);
   ("--region"%string, Argparse.Region)].

(* ===================================================================== *)
(** ** [str.encode('utf-8')] *)
(* ===================================================================== *)

(** The producer of a record turns text into the payload the script
    decodes. *)
(** The byte with the value [n], for [n] below 256. *)
Definition byte_of (n : N) : Byte.byte :=
  match Byte.of_N n with
  | Some b => b
  | None => Byte.x00
  end.

(** The UTF-8 form of one scalar value: one to four bytes. *)
Definition encode_char (c : codepoint) : Utf8.bytes :=
  if (c <? 0x80)%N then
    [byte_of c]
  else if (c <? 0x800)%N then
    [byte_of (N.lor 0xC0 (N.shiftr c 6));
     byte_of (N.lor 0x80 (N.land c 0x3F))]
  else if (c <? 0x10000)%N then
    [byte_of (N.lor 0xE0 (N.shiftr c 12));
     byte_of (N.lor 0x80 (N.land (N.shiftr c 6) 0x3F));
     byte_of (N.lor 0x80 (N.land c 0x3F))]
  else
    [byte_of (N.lor 0xF0 (N.shiftr c 18));
     byte_of (N.lor 0x80 (N.land (N.shiftr c 12) 0x3F));
     byte_of (N.lor 0x80 (N.land (N.shiftr c 6) 0x3F));
     byte_of (N.lor 0x80 (N.land c 0x3F))].

(** [s.encode('utf-8')]; [None] stands for the [UnicodeEncodeError] that
    a surrogate raises. *)
Definition encode (s : pystr) : option Utf8.bytes :=
  if forallb scalar s then Some (flat_map encode_char s) else None.

(** The well-formed byte sequences of one code point, with the code point
    each stands for: the byte ranges the decoder accepts. *)
Inductive sequence : Utf8.bytes -> codepoint -> Prop :=
| Seq1 (b0 : Byte.byte) :
    (Byte.to_N b0 < 0x80)%N ->
    sequence [b0] (Byte.to_N b0)
| Seq2 (b0 b1 : Byte.byte) :
    (0xC2 <= Byte.to_N b0 <= 0xDF)%N ->
    (0x80 <= Byte.to_N b1 <= 0xBF)%N ->
    sequence [b0; b1] (Utf8.join2 (Byte.to_N b0) (Byte.to_N b1))
| Seq3 (b0 b1 b2 : Byte.byte) :
    (0xE0 <= Byte.to_N b0 <= 0xEF)%N ->
    (0x80 <= Byte.to_N b1 <= 0xBF)%N ->
    (Byte.to_N b0 = 0xE0 -> 0xA0 <= Byte.to_N b1)%N ->
    (Byte.to_N b0 = 0xED -> Byte.to_N b1 <= 0x9F)%N ->
    (0x80 <= Byte.to_N b2 <= 0xBF)%N ->
    sequence [b0; b1; b2]
             (Utf8.join3 (Byte.to_N b0) (Byte.to_N b1) (Byte.to_N b2))
| Seq4 (b0 b1 b2 b3 : Byte.byte) :
    (0xF0 <= Byte.to_N b0 <= 0xF4)%N ->
    (0x80 <= Byte.to_N b1 <= 0xBF)%N ->
    (Byte.to_N b0 = 0xF0 -> 0x90 <= Byte.to_N b1)%N ->
    (Byte.to_N b0 = 0xF4 -> Byte.to_N b1 <= 0x8F)%N ->
    (0x80 <= Byte.to_N b2 <= 0xBF)%N ->
    (0x80 <= Byte.to_N b3 <= 0xBF)%N ->
    sequence [b0; b1; b2; b3]
             (Utf8.join4 (Byte.to_N b0) (Byte.to_N b1) (Byte.to_N b2)
                         (Byte.to_N b3)).

(** A record whose payload is the UTF-8 encoding of the euro sign. *)
Definition euro_record (sequence_number : string) : KinesisRecord :=
  {| SequenceNumber := lit sequence_number;
     Data := [Byte.xe2; Byte.x82; Byte.xac];
     PartitionKey := lit "pk" |}.

(* ===================================================================== *)
(** * Properties *)
(* ===================================================================== *)

(** ** The format string *)

Lemma fmt_parse :
  Format.parse (lit "{:^20} {:^60} {:<40}") =
  Some [Format.Field center20; Format.Text space; Format.Field center60;
        Format.Text space; Format.Field left40].
Proof. reflexivity. Qed.

Lemma format_three_strings (a b c : pystr) :
  Format.format (lit "{:^20} {:^60} {:<40}") [PyStr a; PyStr b; PyStr c] =
  inr (table_row a b c).
Proof.
  unfold Format.format. rewrite fmt_parse. unfold table_row. simpl.
  rewrite app_nil_r. reflexivity.
Qed.

Lemma format_not_a_string (v : pyval) (b c : pystr) :
  is_str v = false ->
  Format.format (lit "{:^20} {:^60} {:<40}") [v; PyStr b; PyStr c] =
  inl TypeError.
Proof.
  intros Hv. unfold Format.format. rewrite fmt_parse.
  destruct v; simpl in *; try discriminate; reflexivity.
Qed.

Lemma header_row_eq :
  table_row (lit "Shard") (lit "Position") (lit "Message") = header_row.
Proof. reflexivity. Qed.

Lemma separator_row_eq :
  table_row (times dash 20) (times dash 60) (times dash 40) = separator_row.
Proof. reflexivity. Qed.

(** ** The loop and the shape of a run *)

Lemma bind_ret_l {A B} (a : A) (k : A -> M B) : Run.bind (ret a) k = k a.
Proof. unfold Run.bind, ret. simpl. destruct (k a). reflexivity. Qed.

Lemma bind_emit {B} (ev : event) (k : unit -> M B) :
  Run.bind (emit ev) k = (ev :: fst (k tt), snd (k tt)).
Proof. reflexivity. Qed.

Lemma bind_lift {A B} (r : result A) (k : A -> M B) :
  Run.bind (lift r) k =
  match r with inl e => ([], inl e) | inr a => k a end.
Proof.
  destruct r as [e | a]; [reflexivity |].
  unfold Run.bind, lift. simpl. destruct (k a). reflexivity.
Qed.

Lemma bind_sdk_call {A B} (rq : request) (data : A -> returned)
    (r : sdk_result A) (k : A -> M B) :
  Run.bind (sdk_call rq data r) k =
  match r with
  | inl name => ([EvCall rq (Raised name)], inl (SdkError name))
  | inr a => (EvCall rq (Returned (data a)) :: fst (k a), snd (k a))
  end.
Proof. destruct r; reflexivity. Qed.

(** Text the script itself puts on the output is ASCII, and so is the
    padding of a field. *)
Lemma writable_app (file : TextIO) (s t : pystr) :
  writable file (s ++ t) = writable file s && writable file t.
Proof. apply forallb_app. Qed.

Lemma writable_spaces (file : TextIO) (n : nat) :
  writable file (times space n) = true.
Proof. induction n as [| n IH]; [reflexivity | exact IH]. Qed.

Lemma writable_header (file : TextIO) : writable file header_row = true.
Proof. reflexivity. Qed.

Lemma writable_separator (file : TextIO) : writable file separator_row = true.
Proof. reflexivity. Qed.

Lemma print_writable (file : TextIO) (line : pystr) :
  writable file line = true -> print file line = emit (EvPrint line).
Proof. intros H. unfold print. now rewrite H. Qed.

(** One turn of the loop body prints the row, or raises what the
    rendering of the row or [print] raises. *)
Lemma body_eq (stdout : TextIO) (shard_id : pyval) (record : KinesisRecord) :
  (message <- decode_utf8 (Data record) ;;
   row <- lift (Format.format (lit "{:^20} {:^60} {:<40}")
                  [shard_id; PyStr (SequenceNumber record); PyStr message]) ;;
   print stdout row) =
  match row_out stdout shard_id record with
  | inl e => ([], inl e)
  | inr row => ([EvPrint row], inr tt)
  end.
Proof.
  unfold row_out, row_text, decode_utf8.
  destruct (Utf8.decode (Data record)) as [message |].
  - rewrite bind_ret_l, bind_lift.
    destruct (Format.format _ _) as [e | row]; [reflexivity |].
    unfold print. destruct (writable stdout row); reflexivity.
  - reflexivity.
Qed.

Lemma loop_eq (stdout : TextIO) (shard_id : pyval)
    (records : list KinesisRecord) :
  for_each records (fun record =>
    message <- decode_utf8 (Data record) ;;
    row <- lift (Format.format (lit "{:^20} {:^60} {:<40}")
                   [shard_id; PyStr (SequenceNumber record); PyStr message]) ;;
    print stdout row) =
  (List.map EvPrint (fst (rows_printed stdout shard_id records)),
   snd (rows_printed stdout shard_id records)).
Proof.
  induction records as [| record records IH]; [reflexivity |].
  cbn [for_each rows_printed]. rewrite body_eq.
  destruct (row_out stdout shard_id record) as [e | row]; [reflexivity |].
  unfold Run.bind at 1. cbn [fst snd]. rewrite IH. reflexivity.
Qed.

(** Every run of [main] has one of four shapes, decided by the answers of
    the SDK. *)
Lemma main_shape (stdout : TextIO) (boto3 : Boto3)
    (args : Argparse.Namespace) :
  main stdout boto3 args =
  match client boto3 (lit "kinesis") (Argparse.region args) with
  | inl name =>
      ([EvCall (ReqClient (lit "kinesis") (Argparse.region args)) (Raised name)],
       inl (SdkError name))
  | inr kinesis =>
      match get_shard_iterator kinesis (Argparse.stream_name args)
                               (Argparse.shard_id args) TRIM_HORIZON with
      | inl name =>
          ([ev_client args;
            EvCall (ReqGetShardIterator (Argparse.stream_name args)
                                        (Argparse.shard_id args) TRIM_HORIZON)
                   (Raised name)],
           inl (SdkError name))
      | inr it =>
          match get_records kinesis (ShardIterator it) 200 with
          | inl name =>
              ([ev_client args; ev_iterator args it;
                ev_records it (Raised name)],
               inl (SdkError name))
          | inr out =>
              (ev_client args :: ev_iterator args it ::
               ev_records it (Returned (RetRecords out)) ::
               EvPrint header_row :: EvPrint separator_row ::
               List.map EvPrint
                 (fst (rows_printed stdout (Argparse.shard_id args)
                                    (Records out))),
               snd (rows_printed stdout (Argparse.shard_id args)
                                 (Records out)))
          end
      end
  end.
Proof.
  unfold main, call_client, call_get_shard_iterator, call_get_records.
  rewrite bind_sdk_call.
  destruct (client boto3 _ _) as [name | kinesis]; [reflexivity |].
  rewrite bind_sdk_call.
  destruct (get_shard_iterator kinesis _ _ _) as [name | it]; [reflexivity |].
  rewrite bind_sdk_call.
  destruct (get_records kinesis _ _) as [name | out]; [reflexivity |].
  rewrite !format_three_strings, !bind_lift.
  rewrite header_row_eq, separator_row_eq.
  rewrite !print_writable by reflexivity. rewrite !bind_emit.
  rewrite loop_eq. reflexivity.
Qed.

(** ** Fields *)

Lemma times_length (c : codepoint) (n : nat) : List.length (times c n) = n.
Proof. apply repeat_length. Qed.

(** A field is its content between two runs of spaces: nothing is cut
    off and nothing else is added. *)
Lemma format_str_padding (sp : Format.spec) (s : pystr) :
  exists l r, Format.format_str sp s = times space l ++ s ++ times space r.
Proof.
  unfold Format.format_str.
  destruct (Format.calc_padding _ _ _) as [l r]. exists l, r. reflexivity.
Qed.

(** The width of a format specification is a minimum width. *)
Lemma format_str_length (sp : Format.spec) (w : nat) (s : pystr) :
  Format.sp_width sp = Some w ->
  List.length (Format.format_str sp s) = Nat.max w (List.length s).
Proof.
  intros Hw. unfold Format.format_str, Format.calc_padding. rewrite Hw.
  rewrite !length_app, !times_length.
  set (n := List.length s).
  set (total := if w <? n then n else w).
  assert (Htotal : total = Nat.max w n).
  { unfold total. destruct (Nat.ltb_spec w n); lia. }
  assert (Hhalf : (total - n) / 2 <= total - n)
    by (apply Nat.Div0.div_le_upper_bound; lia).
  destruct (Format.sp_align sp) as [[| |] |]; lia.
Qed.

(** Content at least as wide as the field is printed as it is. *)
Lemma format_str_wide (sp : Format.spec) (w : nat) (s : pystr) :
  Format.sp_width sp = Some w -> w <= List.length s ->
  Format.format_str sp s = s.
Proof.
  intros Hw Hle. unfold Format.format_str, Format.calc_padding. rewrite Hw.
  set (n := List.length s).
  assert (Hz : (if w <? n then n else w) - n = 0).
  { destruct (Nat.ltb_spec w n); lia. }
  rewrite Hz.
  destruct (match Format.sp_align sp with
            | Some a => a
            | None => Format.AlignLeft
            end); simpl; apply app_nil_r.
Qed.

(** ** Traces *)

Lemma printed_map_print (rows : list pystr) :
  printed (List.map EvPrint rows) = rows.
Proof. induction rows as [| row rows IH]; simpl; congruence. Qed.

Lemma calls_map_print (rows : list pystr) : calls (List.map EvPrint rows) = [].
Proof. induction rows as [| row rows IH]; simpl; congruence. Qed.

Lemma in_map_print_call (rows : list pystr) (rq : request) (rp : reply) :
  ~ In (EvCall rq rp) (List.map EvPrint rows).
Proof.
  intros Hin. apply in_map_iff in Hin. destruct Hin as [row [Heq _]].
  discriminate.
Qed.

(** ** Rows *)

Lemma row_text_str (sid : pystr) (record : KinesisRecord) :
  row_text (PyStr sid) record =
  match Utf8.decode (Data record) with
  | Some message => inr (table_row sid (SequenceNumber record) message)
  | None => inl UnicodeDecodeError
  end.
Proof.
  unfold row_text. destruct (Utf8.decode (Data record)); [| reflexivity].
  apply format_three_strings.
Qed.

Lemma row_text_valid (sid : pystr) (record : KinesisRecord) :
  Utf8.valid (Data record) = true ->
  row_text (PyStr sid) record =
  inr (table_row sid (SequenceNumber record) (message_of record)).
Proof.
  intros Hv. rewrite row_text_str. unfold Utf8.valid, message_of in *.
  destruct (Utf8.decode (Data record)); [reflexivity | discriminate].
Qed.

Lemma row_text_invalid (shard_id : pyval) (record : KinesisRecord) :
  Utf8.valid (Data record) = false ->
  row_text shard_id record = inl UnicodeDecodeError.
Proof.
  intros Hv. unfold row_text, Utf8.valid in *.
  destruct (Utf8.decode (Data record)); [discriminate | reflexivity].
Qed.

(** A row is rendered or the rendering raises one of two exceptions. *)
Lemma row_text_raises (shard_id : pyval) (record : KinesisRecord) (e : exn) :
  row_text shard_id record = inl e ->
  e = UnicodeDecodeError \/ e = TypeError.
Proof.
  unfold row_text. destruct (Utf8.decode (Data record)) as [message |].
  - destruct shard_id as [| sid |].
    + rewrite format_not_a_string by reflexivity. intros [= <-]. now right.
    + rewrite format_three_strings. discriminate.
    + rewrite format_not_a_string by reflexivity. intros [= <-]. now right.
  - intros [= <-]. now left.
Qed.

(** A row can be written when the three values it shows can. *)
Lemma writable_format_str (file : TextIO) (sp : Format.spec) (s : pystr) :
  writable file (Format.format_str sp s) = writable file s.
Proof.
  destruct (format_str_padding sp s) as [l [r ->]].
  rewrite !writable_app, !writable_spaces. now rewrite andb_true_r.
Qed.

Lemma writable_table_row (file : TextIO) (a b c : pystr) :
  writable file (table_row a b c) =
  writable file a && writable file b && writable file c.
Proof.
  unfold table_row. rewrite !writable_app, !writable_format_str.
  change (writable file [space]) with true. cbn [andb].
  now rewrite andb_assoc.
Qed.

(** A turn of the loop that prints has rendered a row the stream takes. *)
Lemma row_out_inr (stdout : TextIO) (shard_id : pyval) (record : KinesisRecord)
    (row : pystr) :
  row_out stdout shard_id record = inr row <->
  row_text shard_id record = inr row /\ writable stdout row = true.
Proof.
  unfold row_out. destruct (row_text shard_id record) as [e | row0].
  - split; [discriminate | now intros [[=] _]].
  - destruct (writable stdout row0) eqn:Hw; split.
    + intros [= <-]. now split.
    + now intros [[= <-] _].
    + discriminate.
    + intros [[= <-] Hrow]. congruence.
Qed.

(** A turn of the loop raises what the rendering raises, or the encoding
    error of [print] for a row that was rendered. *)
Lemma row_out_inl (stdout : TextIO) (shard_id : pyval) (record : KinesisRecord)
    (e : exn) :
  row_out stdout shard_id record = inl e <->
  row_text shard_id record = inl e \/
  (e = UnicodeEncodeError /\
   exists row, row_text shard_id record = inr row /\
               writable stdout row = false).
Proof.
  unfold row_out. destruct (row_text shard_id record) as [e0 | row] eqn:Hrow.
  - split; [intros [= <-]; now left |].
    intros [Heq | [_ [row [[=] _]]]]. exact Heq.
  - destruct (writable stdout row) eqn:Hw; split.
    + discriminate.
    + intros [[=] | [_ [row' [[= <-] Hw']]]]. congruence.
    + intros [= <-]. right. split; [reflexivity |]. now exists row.
    + intros [[=] | [-> _]]. reflexivity.
Qed.

Lemma row_out_valid (stdout : TextIO) (sid : pystr) (record : KinesisRecord) :
  Utf8.valid (Data record) = true ->
  row_out stdout (PyStr sid) record =
  if writable stdout sid && writable stdout (SequenceNumber record) &&
     writable stdout (message_of record)
  then inr (table_row sid (SequenceNumber record) (message_of record))
  else inl UnicodeEncodeError.
Proof.
  intros Hv. unfold row_out.
  now rewrite (row_text_valid sid record Hv), writable_table_row.
Qed.

Lemma row_out_invalid (stdout : TextIO) (shard_id : pyval)
    (record : KinesisRecord) :
  Utf8.valid (Data record) = false ->
  row_out stdout shard_id record = inl UnicodeDecodeError.
Proof. intros Hv. unfold row_out. now rewrite (row_text_invalid _ _ Hv). Qed.

Lemma rows_printed_valid (stdout : TextIO) (sid : pystr)
    (records : list KinesisRecord) :
  Forall (fun r => Utf8.valid (Data r) = true) records ->
  writable stdout sid = true ->
  Forall (shows_writable stdout) records ->
  rows_printed stdout (PyStr sid) records =
  (List.map (fun r => table_row sid (SequenceNumber r) (message_of r)) records,
   inr tt).
Proof.
  intros Hvalid Hsid Hshow.
  induction Hvalid as [| record records Hv _ IH]; [reflexivity |].
  inversion Hshow as [| ? ? [Hseq Hmsg] Hrest]; subst.
  cbn [rows_printed]. rewrite (row_out_valid stdout sid record Hv).
  rewrite Hsid, Hseq, Hmsg, (IH Hrest). reflexivity.
Qed.

(** The loop prints a row for each record of a prefix of the batch: the
    whole batch when it ends normally, a proper prefix when it raises. *)
Lemma rows_printed_prefix (stdout : TextIO) (shard_id : pyval)
    (records : list KinesisRecord) :
  exists k,
    Forall2 (fun r row => row_text shard_id r = inr row /\
                          writable stdout row = true)
            (firstn k records) (fst (rows_printed stdout shard_id records)) /\
    match snd (rows_printed stdout shard_id records) with
    | inr _ => k = List.length records
    | inl e =>
        k < List.length records /\
        exists r, nth_error records k = Some r /\
                  row_out stdout shard_id r = inl e
    end.
Proof.
  induction records as [| record records [k [Hrows Hend]]].
  - exists 0. split; [constructor | reflexivity].
  - cbn [rows_printed].
    destruct (row_out stdout shard_id record) as [e | row] eqn:Hrow.
    + exists 0. split; [constructor |]. cbn [snd List.length].
      split; [lia |]. exists record. split; [reflexivity | assumption].
    + exists (S k). cbn [fst snd firstn].
      split; [constructor; [now apply row_out_inr | assumption] |].
      destruct (snd (rows_printed stdout shard_id records)) as [e | u].
      * destruct Hend as [Hlt [r [Hnth Hr]]].
        split; [simpl; lia |]. exists r. split; assumption.
      * simpl. congruence.
Qed.

(** ** Reading a run off its trace *)

(** A run in which [get_shard_iterator] returned [it] went on to call
    [get_records]. *)
Lemma acquired_shape (stdout : TextIO) (boto3 : Boto3)
    (args : Argparse.Namespace)
    (sn sh : pyval) (ty : ShardIteratorType) (it : GetShardIteratorOutput) :
  In (EvCall (ReqGetShardIterator sn sh ty) (Returned (RetShardIterator it)))
     (trace (main stdout boto3 args)) ->
  exists rp rest,
    trace (main stdout boto3 args) =
    ev_client args :: ev_iterator args it :: ev_records it rp :: rest /\
    calls rest = [].
Proof.
  unfold trace. rewrite main_shape.
  destruct (client boto3 _ _) as [name | kinesis]; cbn [fst].
  { intros [[=] | []]. }
  destruct (get_shard_iterator kinesis _ _ _) as [name | it']; cbn [fst].
  { intros [[=] | [[=] | []]]. }
  destruct (get_records kinesis _ _) as [name | out]; cbn [fst].
  - intros [[=] | [[= _ _ _ ->] | [[=] | []]]].
    exists (Raised name), []. split; reflexivity.
  - intros [[=] | [[= _ _ _ ->] | [[=] | [[=] | [[=] | Hin]]]]].
    + exists (Returned (RetRecords out)). eexists. split; [reflexivity |].
      simpl. apply calls_map_print.
    + exfalso. eapply in_map_print_call; eassumption.
Qed.

(** A run in which [get_records] returned [out] printed the header, the
    separator and what the loop printed for [out]. *)
Lemma fetched_shape (stdout : TextIO) (boto3 : Boto3)
    (args : Argparse.Namespace)
    (cursor : pystr) (limit : Z) (out : GetRecordsOutput) :
  In (EvCall (ReqGetRecords cursor limit) (Returned (RetRecords out)))
     (trace (main stdout boto3 args)) ->
  exists it,
    cursor = ShardIterator it /\ limit = 200%Z /\
    main stdout boto3 args =
    (ev_client args :: ev_iterator args it ::
     ev_records it (Returned (RetRecords out)) ::
     EvPrint header_row :: EvPrint separator_row ::
     List.map EvPrint
       (fst (rows_printed stdout (Argparse.shard_id args) (Records out))),
     snd (rows_printed stdout (Argparse.shard_id args) (Records out))).
Proof.
  unfold trace. rewrite main_shape.
  destruct (client boto3 _ _) as [name | kinesis]; cbn [fst].
  { intros [[=] | []]. }
  destruct (get_shard_iterator kinesis _ _ _) as [name | it]; cbn [fst].
  { intros [[=] | [[=] | []]]. }
  destruct (get_records kinesis _ _) as [name | out']; cbn [fst].
  - intros [[=] | [[=] | [[=] | []]]].
  - intros [[=] | [[=] | [[= <- <- ->] | [[=] | [[=] | Hin]]]]].
    + exists it. repeat split; reflexivity.
    + exfalso. eapply in_map_print_call; eassumption.
Qed.

Lemma printed_fetched (args : Argparse.Namespace) (it : GetShardIteratorOutput)
    (rp : reply) (rows : list pystr) :
  printed (ev_client args :: ev_iterator args it :: ev_records it rp ::
           EvPrint header_row :: EvPrint separator_row ::
           List.map EvPrint rows) =
  header_row :: separator_row :: rows.
Proof. cbn [printed ev_client ev_iterator ev_records]. now rewrite printed_map_print. Qed.

(* ===================================================================== *)
(** * The claims *)
(* ===================================================================== *)

(** C1.  In every run in which [get_shard_iterator] returns a cursor,
    [get_records] is called exactly once in the whole run, with exactly
    that cursor and [Limit=200]: there is no second fetch, so the
    [NextShardIterator] of the answer is never used. *)
Theorem C1_single_fetch_with_acquired_cursor
    (stdout : TextIO) (boto3 : Boto3) (args : Argparse.Namespace)
    (sn sh : pyval) (ty : ShardIteratorType) (it : GetShardIteratorOutput) :
  In (EvCall (ReqGetShardIterator sn sh ty) (Returned (RetShardIterator it)))
     (trace (main stdout boto3 args)) ->
  exists rp,
    filter is_get_records (calls (trace (main stdout boto3 args))) =
    [(ReqGetRecords (ShardIterator it) 200, rp)].
Proof.
  intros Hin.
  destruct (acquired_shape _ _ _ _ _ _ _ Hin) as [rp [rest [-> Hrest]]].
  exists rp. cbn [calls ev_client ev_iterator ev_records]. rewrite Hrest.
  reflexivity.
Qed.

(** C1 at the sample service with one record. *)
Lemma C1_witness :
  exists rp,
    filter is_get_records
      (calls (trace (main utf8_stdout
                          (sample_boto3 [sample_record "4956" "hello"])
                          sample_args))) =
    [(ReqGetRecords (lit "abc123") 200, rp)].
Proof.
  apply (@C1_single_fetch_with_acquired_cursor utf8_stdout
           (sample_boto3 [sample_record "4956" "hello"]) sample_args
           (PyStr (lit "orders")) (PyStr (lit "shardId-0001")) TRIM_HORIZON
           {| ShardIterator := lit "abc123" |}).
  vm_compute. right. left. reflexivity.
Defined.

(** C5.  The two remote calls are made in sequence.  When
    [get_shard_iterator] raises, [get_records] is not called, nothing is
    printed and the exception leaves the program; and whenever
    [get_records] is called, [get_shard_iterator] has returned before it,
    and the cursor passed is the one it returned. *)
Theorem C5_no_fetch_unless_cursor_acquired
    (stdout : TextIO) (boto3 : Boto3) (args : Argparse.Namespace) :
  (forall sn sh ty name,
      In (EvCall (ReqGetShardIterator sn sh ty) (Raised name))
         (trace (main stdout boto3 args)) ->
      filter is_get_records (calls (trace (main stdout boto3 args))) = [] /\
      printed (trace (main stdout boto3 args)) = [] /\
      outcome (main stdout boto3 args) = inl (SdkError name)) /\
  (forall before cursor limit rp after,
      trace (main stdout boto3 args) =
      before ++ EvCall (ReqGetRecords cursor limit) rp :: after ->
      exists it,
        In (EvCall (ReqGetShardIterator (Argparse.stream_name args)
                                        (Argparse.shard_id args) TRIM_HORIZON)
                   (Returned (RetShardIterator it)))
           before /\
        cursor = ShardIterator it).
Proof.
  unfold trace, outcome. rewrite main_shape.
  destruct (client boto3 _ _) as [name0 | kinesis]; cbn [fst snd].
  { split.
    - intros sn sh ty name [[=] | []].
    - intros [| e0 [| e1 before]] cursor limit rp after [=]. }
  destruct (get_shard_iterator kinesis _ _ _) as [name0 | it]; cbn [fst snd].
  { split.
    - intros sn sh ty name [[=] | [[= _ _ _ ->] | []]].
      repeat split; reflexivity.
    - intros [| e0 [| e1 [| e2 before]]] cursor limit rp after [=]. }
  assert (Hfetch : forall rp0 rows before cursor limit rp after,
             ev_client args :: ev_iterator args it :: ev_records it rp0 ::
             List.map EvPrint rows =
             before ++ EvCall (ReqGetRecords cursor limit) rp :: after ->
             exists it',
               In (ev_iterator args it') before /\ cursor = ShardIterator it').
  { intros rp0 rows [| e0 [| e1 [| e2 before]]] cursor limit rp after;
      cbn [app]; intros [=].
    - subst. exists it. split; [right; left; reflexivity | reflexivity].
    - exfalso. apply (@in_map_print_call rows (ReqGetRecords cursor limit) rp).
      match goal with H : List.map EvPrint rows = _ |- _ => rewrite H end.
      apply in_elt. }
  destruct (get_records kinesis _ _) as [name0 | out]; cbn [fst snd].
  - split.
    + intros sn sh ty name [[=] | [[=] | [[=] | []]]].
    + intros before cursor limit rp after Heq.
      apply (Hfetch (Raised name0) [] before cursor limit rp after Heq).
  - split.
    + intros sn sh ty name [[=] | [[=] | [[=] | [[=] | [[=] | Hin]]]]].
      exfalso. eapply in_map_print_call; eassumption.
    + intros before cursor limit rp after Heq.
      apply (Hfetch (Returned (RetRecords out))
                    (header_row :: separator_row ::
                     fst (rows_printed stdout (Argparse.shard_id args)
                                       (Records out)))
                    before cursor limit rp after Heq).
Qed.

(** C5 at a service that does not know the shard. *)
Lemma C5_witness :
  filter is_get_records
    (calls (trace (main utf8_stdout unknown_shard_boto3 sample_args))) = [] /\
  printed (trace (main utf8_stdout unknown_shard_boto3 sample_args)) = [] /\
  outcome (main utf8_stdout unknown_shard_boto3 sample_args) =
  inl (SdkError "ResourceNotFoundException").
Proof.
  apply (proj1 (C5_no_fetch_unless_cursor_acquired utf8_stdout
                  unknown_shard_boto3 sample_args)
               (PyStr (lit "orders")) (PyStr (lit "shardId-0001"))
               TRIM_HORIZON "ResourceNotFoundException"%string).
  vm_compute. right. left. reflexivity.
Defined.

(** C6.  In every run in which the fetch returns no records, the output
    is the header row and the separator row and nothing else: two lines
    of text, no data row. *)
Theorem C6_empty_batch_prints_two_lines
    (stdout : TextIO) (boto3 : Boto3) (args : Argparse.Namespace)
    (cursor : pystr) (limit : Z) (out : GetRecordsOutput) :
  In (EvCall (ReqGetRecords cursor limit) (Returned (RetRecords out)))
     (trace (main stdout boto3 args)) ->
  Records out = [] ->
  printed (trace (main stdout boto3 args)) = [header_row; separator_row] /\
  stdout_text (trace (main stdout boto3 args)) =
  header_row ++ [newline] ++ separator_row ++ [newline] /\
  count_occ N.eq_dec (stdout_text (trace (main stdout boto3 args))) newline =
  2 /\
  outcome (main stdout boto3 args) = inr tt.
Proof.
  intros Hin Hempty.
  destruct (fetched_shape _ _ _ _ _ _ Hin) as [it [_ [_ Hshape]]].
  unfold trace, outcome, stdout_text. rewrite Hshape, Hempty.
  cbn [fst snd rows_printed].
  rewrite printed_fetched. repeat split; reflexivity.
Qed.

(** C6 at the sample service with an empty batch. *)
Lemma C6_witness :
  printed (trace (main utf8_stdout (sample_boto3 []) sample_args)) =
  [header_row; separator_row] /\
  stdout_text (trace (main utf8_stdout (sample_boto3 []) sample_args)) =
  header_row ++ [newline] ++ separator_row ++ [newline] /\
  count_occ N.eq_dec
    (stdout_text (trace (main utf8_stdout (sample_boto3 []) sample_args)))
    newline = 2 /\
  outcome (main utf8_stdout (sample_boto3 []) sample_args) = inr tt.
Proof.
  apply (@C6_empty_batch_prints_two_lines utf8_stdout
           (sample_boto3 []) sample_args (lit "abc123") 200%Z
           {| Records := [];
              NextShardIterator := Some (lit "def456");
              MillisBehindLatest := 0 |}).
  - vm_compute. right. right. left. reflexivity.
  - reflexivity.
Defined.

(** C2, as the specification states it, fails: a batch of one record
    with a well-formed payload, the euro sign, is fetched for a shard id
    given on the command line, and standard output is opened as ASCII.
    [print] raises at the row: the output is the header and the
    separator, with no data row. *)
Lemma C2_counterexample_unencodable_row :
  In (EvCall (ReqGetRecords (lit "abc123") 200)
             (Returned (RetRecords
                          {| Records := [euro_record "4956"];
                             NextShardIterator := Some (lit "def456");
                             MillisBehindLatest := 0 |})))
     (trace (main ascii_stdout (sample_boto3 [euro_record "4956"])
                  sample_args)) /\
  Utf8.decode (Data (euro_record "4956")) = Some [0x20AC%N] /\
  printed (trace (main ascii_stdout (sample_boto3 [euro_record "4956"])
                       sample_args)) = [header_row; separator_row] /\
  outcome (main ascii_stdout (sample_boto3 [euro_record "4956"])
                sample_args) = inl UnicodeEncodeError /\
  ~ one_row_per_record
      (main ascii_stdout (sample_boto3 [euro_record "4956"]) sample_args)
      (lit "shardId-0001") [euro_record "4956"].
Proof.
  split; [vm_compute; right; right; left; reflexivity |].
  split; [reflexivity |]. split; [reflexivity |]. split; [reflexivity |].
  intros [rows [Hprinted [Hlen _]]].
  change (printed (trace (main ascii_stdout (sample_boto3 [euro_record "4956"])
                               sample_args)))
    with [header_row; separator_row] in Hprinted.
  injection Hprinted as <-. discriminate.
Qed.

(** C2, amended.  In every run in which the fetch returns N records,
    1 <= N <= 200, all with well-formed UTF-8 payloads, the shard id was
    given on the command line, and standard output can encode the shard
    id, the sequence numbers and the decoded payloads, the output is the
    header, the separator and exactly N data rows; the i-th data row
    shows the shard id, the sequence number of the i-th record and its
    payload decoded as UTF-8, in the order of the answer, and the run
    ends normally. *)
Theorem C2_one_row_per_record_in_order
    (stdout : TextIO) (boto3 : Boto3) (args : Argparse.Namespace)
    (cursor : pystr) (limit : Z) (out : GetRecordsOutput)
    (sid : pystr) (N : nat) :
  In (EvCall (ReqGetRecords cursor limit) (Returned (RetRecords out)))
     (trace (main stdout boto3 args)) ->
  Argparse.shard_id args = PyStr sid ->
  List.length (Records out) = N ->
  1 <= N <= 200 ->
  Forall (fun r => Utf8.valid (Data r) = true) (Records out) ->
  writable stdout sid = true ->
  Forall (shows_writable stdout) (Records out) ->
  one_row_per_record (main stdout boto3 args) sid (Records out) /\
  List.length (printed (trace (main stdout boto3 args))) = 2 + N /\
  outcome (main stdout boto3 args) = inr tt.
Proof.
  intros Hin Hsid HN _ Hvalid Hwsid Hshow.
  destruct (fetched_shape _ _ _ _ _ _ Hin) as [it [_ [_ Hshape]]].
  unfold one_row_per_record, trace, outcome.
  rewrite Hshape, Hsid, (@rows_printed_valid stdout sid _ Hvalid Hwsid Hshow).
  cbn [fst snd]. rewrite printed_fetched.
  split; [| split; [cbn [List.length]; now rewrite length_map, HN |
                    reflexivity]].
  eexists. split; [reflexivity |].
  split; [now rewrite length_map |].
  intros i r Hnth.
  assert (Hr : Utf8.valid (Data r) = true).
  { eapply Forall_forall in Hvalid; [eassumption |].
    eapply nth_error_In; eassumption. }
  unfold Utf8.valid in Hr.
  destruct (Utf8.decode (Data r)) as [message |] eqn:Hdec; [| discriminate].
  exists message. split; [reflexivity |].
  rewrite nth_error_map, Hnth. cbn [option_map].
  unfold message_of. rewrite Hdec. reflexivity.
Qed.

(** C2 at a batch of two records, the second with a euro sign, on a
    UTF-8 output. *)
Lemma C2_witness :
  one_row_per_record
    (main utf8_stdout (sample_boto3 [sample_record "4956" "hello";
                                     euro_record "4957"])
          sample_args)
    (lit "shardId-0001")
    [sample_record "4956" "hello"; euro_record "4957"] /\
  List.length
    (printed (trace (main utf8_stdout
                          (sample_boto3 [sample_record "4956" "hello";
                                         euro_record "4957"])
                          sample_args))) = 2 + 2 /\
  outcome (main utf8_stdout (sample_boto3 [sample_record "4956" "hello";
                                           euro_record "4957"])
                sample_args) = inr tt.
Proof.
  apply (@C2_one_row_per_record_in_order utf8_stdout
           (sample_boto3 [sample_record "4956" "hello";
                          euro_record "4957"])
           sample_args (lit "abc123") 200%Z
           {| Records := [sample_record "4956" "hello";
                          euro_record "4957"];
              NextShardIterator := Some (lit "def456");
              MillisBehindLatest := 0 |}
           (lit "shardId-0001") 2).
  - vm_compute. right. right. left. reflexivity.
  - reflexivity.
  - reflexivity.
  - lia.
  - repeat constructor.
  - reflexivity.
  - repeat constructor.
Defined.

(** C3, as the specification states it, fails: a batch whose second
    record has an ill-formed payload leaves the header, the separator and
    the first data row on the output, and then the run aborts. *)
Lemma C3_counterexample_partial_table :
  outcome (main utf8_stdout (sample_boto3 [sample_record "4956" "hello";
                               broken_record "4957"])
                sample_args) = inl UnicodeDecodeError /\
  printed (trace (main utf8_stdout (sample_boto3 [sample_record "4956" "hello";
                                      broken_record "4957"])
                       sample_args)) =
  [header_row; separator_row;
   table_row (lit "shardId-0001") (lit "4956") (lit "hello")] /\
  ~ all_or_nothing (main utf8_stdout (sample_boto3 [sample_record "4956" "hello";
                                        broken_record "4957"])
                         sample_args).
Proof.
  split; [reflexivity |]. split; [reflexivity |].
  intros [Hok | Hnothing]; [vm_compute in Hok | vm_compute in Hnothing];
    discriminate.
Qed.

(** C3, amended.  Every run ends in one of four ways.  It ends normally,
    having printed the header, the separator and the row of every record.
    Or a call into the SDK raised: then nothing has been printed.  Or the
    rendering of the record at some index k raised (an ill-formed payload,
    or a shard id that is not a string): then the header, the separator
    and the rows of the k records before it have been printed already.
    Or [print] raised at the row of the record at some index k, which
    holds a character standard output cannot encode: then, again, the
    header, the separator and the rows of the k records before it have
    been printed already. *)
Theorem C3_table_printed_up_to_failure
    (stdout : TextIO) (boto3 : Boto3) (args : Argparse.Namespace) :
  (exists cursor limit out rows,
      In (EvCall (ReqGetRecords cursor limit) (Returned (RetRecords out)))
         (trace (main stdout boto3 args)) /\
      outcome (main stdout boto3 args) = inr tt /\
      printed (trace (main stdout boto3 args)) =
      header_row :: separator_row :: rows /\
      Forall2 (fun r row => row_text (Argparse.shard_id args) r = inr row)
              (Records out) rows)
  \/
  (exists rq name,
      In (EvCall rq (Raised name)) (trace (main stdout boto3 args)) /\
      outcome (main stdout boto3 args) = inl (SdkError name) /\
      printed (trace (main stdout boto3 args)) = [])
  \/
  (exists cursor limit out rows k r e,
      In (EvCall (ReqGetRecords cursor limit) (Returned (RetRecords out)))
         (trace (main stdout boto3 args)) /\
      outcome (main stdout boto3 args) = inl e /\
      (e = UnicodeDecodeError \/ e = TypeError) /\
      nth_error (Records out) k = Some r /\
      row_text (Argparse.shard_id args) r = inl e /\
      printed (trace (main stdout boto3 args)) =
      header_row :: separator_row :: rows /\
      Forall2 (fun r row => row_text (Argparse.shard_id args) r = inr row)
              (firstn k (Records out)) rows)
  \/
  (exists cursor limit out rows k r row,
      In (EvCall (ReqGetRecords cursor limit) (Returned (RetRecords out)))
         (trace (main stdout boto3 args)) /\
      outcome (main stdout boto3 args) = inl UnicodeEncodeError /\
      nth_error (Records out) k = Some r /\
      row_text (Argparse.shard_id args) r = inr row /\
      writable stdout row = false /\
      printed (trace (main stdout boto3 args)) =
      header_row :: separator_row :: rows /\
      Forall2 (fun r row => row_text (Argparse.shard_id args) r = inr row)
              (firstn k (Records out)) rows).
Proof.
  unfold trace, outcome. rewrite main_shape.
  destruct (client boto3 _ _) as [name | kinesis]; cbn [fst snd].
  { right. left. eexists _, name. split; [left; reflexivity |].
    split; reflexivity. }
  destruct (get_shard_iterator kinesis _ _ _) as [name | it]; cbn [fst snd].
  { right. left. eexists _, name. split; [right; left; reflexivity |].
    split; reflexivity. }
  destruct (get_records kinesis _ _) as [name | out]; cbn [fst snd].
  { right. left. eexists _, name. split; [right; right; left; reflexivity |].
    split; reflexivity. }
  rewrite printed_fetched.
  destruct (rows_printed_prefix stdout (Argparse.shard_id args) (Records out))
    as [k [Hrows Hend]].
  apply (Forall2_impl
           (fun r row => row_text (Argparse.shard_id args) r = inr row))
    in Hrows; [| now intros r row [Hrow _]].
  destruct (snd (rows_printed stdout (Argparse.shard_id args) (Records out)))
    as [e | []].
  - destruct Hend as [_ [r [Hnth Hr]]]. apply row_out_inl in Hr.
    destruct Hr as [Hr | [-> [row [Hrow Hw]]]].
    + right. right. left.
      exists (ShardIterator it), 200%Z, out. eexists. exists k, r, e.
      split; [right; right; left; reflexivity |].
      split; [reflexivity |].
      split; [eapply row_text_raises; eassumption |].
      repeat (split; [first [reflexivity | assumption] |]). assumption.
    + right. right. right.
      exists (ShardIterator it), 200%Z, out. eexists. exists k, r, row.
      split; [right; right; left; reflexivity |].
      repeat (split; [first [reflexivity | assumption] |]). assumption.
  - left. subst k. rewrite firstn_all in Hrows.
    exists (ShardIterator it), 200%Z, out. eexists.
    split; [right; right; left; reflexivity |].
    repeat (split; [first [reflexivity | assumption] |]). assumption.
Qed.

(** ** Ill-formed payloads *)




(** ** Columns *)

Lemma fixed_widths_length (row : pystr) :
  fixed_widths row -> List.length row = 122.
Proof.
  intros [c1 [c2 [c3 [-> [H1 [H2 H3]]]]]].
  rewrite !length_app. simpl. lia.
Qed.

Lemma table_row_fits (s1 s2 s3 : pystr) :
  List.length s1 <= 20 -> List.length s2 <= 60 -> List.length s3 <= 40 ->
  fixed_widths (table_row s1 s2 s3).
Proof.
  intros H1 H2 H3.
  exists (Format.format_str center20 s1), (Format.format_str center60 s2),
         (Format.format_str left40 s3).
  split; [reflexivity |].
  rewrite (@format_str_length center20 20), (@format_str_length center60 60),
          (@format_str_length left40 40) by reflexivity.
  lia.
Qed.

Lemma table_row_minimum (s1 s2 s3 : pystr) : minimum_widths (table_row s1 s2 s3).
Proof.
  exists (Format.format_str center20 s1), (Format.format_str center60 s2),
         (Format.format_str left40 s3).
  split; [reflexivity |].
  rewrite (@format_str_length center20 20), (@format_str_length center60 60),
          (@format_str_length left40 40) by reflexivity.
  lia.
Qed.

(** A row that was rendered is the table row of the shard id, the
    sequence number and the decoded payload. *)
Lemma row_text_inr (shard_id : pyval) (record : KinesisRecord) (row : pystr) :
  row_text shard_id record = inr row ->
  exists sid message,
    shard_id = PyStr sid /\
    Utf8.decode (Data record) = Some message /\
    row = table_row sid (SequenceNumber record) message.
Proof.
  unfold row_text. destruct (Utf8.decode (Data record)) as [message |];
    [| discriminate].
  destruct shard_id as [| sid |].
  - rewrite format_not_a_string by reflexivity. discriminate.
  - rewrite format_three_strings. intros [= <-]. now exists sid, message.
  - rewrite format_not_a_string by reflexivity. discriminate.
Qed.

Lemma rows_printed_nth (stdout : TextIO) (shard_id : pyval)
    (records : list KinesisRecord) (i : nat) (row : pystr) :
  nth_error (fst (rows_printed stdout shard_id records)) i = Some row ->
  exists r, nth_error records i = Some r /\ row_text shard_id r = inr row.
Proof.
  revert i. induction records as [| record records IH]; intros i.
  - destruct i; discriminate.
  - cbn [rows_printed].
    destruct (row_out stdout shard_id record) as [e | row0] eqn:Hrow.
    + destruct i; discriminate.
    + destruct i as [| i]; cbn [fst nth_error].
      * intros [= <-]. exists record. split; [reflexivity |].
        now apply row_out_inr in Hrow.
      * apply IH.
Qed.

Lemma rows_printed_rows (stdout : TextIO) (shard_id : pyval)
    (records : list KinesisRecord) :
  Forall (fun row =>
            exists sid r message,
              shard_id = PyStr sid /\ In r records /\
              Utf8.decode (Data r) = Some message /\
              row = table_row sid (SequenceNumber r) message)
         (fst (rows_printed stdout shard_id records)).
Proof.
  apply Forall_forall. intros row Hin.
  apply In_nth_error in Hin. destruct Hin as [i Hi].
  destruct (rows_printed_nth _ _ _ _ Hi) as [r [Hnth Hrow]].
  destruct (row_text_inr _ _ Hrow) as [sid [message [Hsid [Hdec ->]]]].
  exists sid, r, message. repeat split; try assumption.
  eapply nth_error_In; eassumption.
Qed.

(** What a run of [main] has printed: nothing, or the header, the
    separator and the rows of the loop. *)
Lemma printed_main (stdout : TextIO) (boto3 : Boto3)
    (args : Argparse.Namespace) :
  printed (trace (main stdout boto3 args)) = [] \/
  exists cursor limit out,
    In (EvCall (ReqGetRecords cursor limit) (Returned (RetRecords out)))
       (trace (main stdout boto3 args)) /\
    printed (trace (main stdout boto3 args)) =
    header_row :: separator_row ::
    fst (rows_printed stdout (Argparse.shard_id args) (Records out)).
Proof.
  unfold trace. rewrite main_shape.
  destruct (client boto3 _ _) as [name | kinesis]; [now left |].
  destruct (get_shard_iterator kinesis _ _ _) as [name | it]; [now left |].
  destruct (get_records kinesis _ _) as [name | out]; [now left |].
  right. exists (ShardIterator it), 200%Z, out. cbn [fst].
  split; [right; right; left; reflexivity | apply printed_fetched].
Qed.

(** C7, as the specification states it, fails: a payload of 41 characters
    makes the third column of its row 41 characters wide, and the row 123
    characters long instead of 122. *)
Lemma C7_counterexample_wide_column :
  nth_error
    (printed (trace (main utf8_stdout
                          (sample_boto3 [sample_record "4956" long_payload])
                          sample_args))) 2 =
  Some (table_row (lit "shardId-0001") (lit "4956") (lit long_payload)) /\
  List.length
    (Format.format_str left40 (lit long_payload)) = 41 /\
  ~ Forall fixed_widths
      (printed (trace (main utf8_stdout
                          (sample_boto3 [sample_record "4956" long_payload])
                            sample_args))).
Proof.
  split; [reflexivity |]. split; [reflexivity |].
  intros Hall.
  assert (Hrow : fixed_widths
                   (table_row (lit "shardId-0001") (lit "4956")
                              (lit long_payload))).
  { eapply Forall_forall; [exact Hall |].
    apply (@nth_error_In _ _ 2). reflexivity. }
  apply fixed_widths_length in Hrow. vm_compute in Hrow. discriminate.
Qed.

(** C7, amended.  The widths 20, 60 and 40 are minimum widths.  The header
    row and the separator row, which consists of dashes of those widths,
    have columns of exactly 20, 60 and 40 characters.  Every row of every
    run is three columns separated by single spaces, at least 20, 60 and 40
    characters wide; and in a run in which the shard id, the sequence
    numbers and the decoded payloads are at most 20, 60 and 40 characters
    long, every row has columns of exactly these widths. *)
Theorem C7_minimum_column_widths
    (stdout : TextIO) (boto3 : Boto3) (args : Argparse.Namespace) :
  fixed_widths header_row /\
  fixed_widths separator_row /\
  separator_row =
  times dash 20 ++ [space] ++ times dash 60 ++ [space] ++ times dash 40 /\
  Forall minimum_widths (printed (trace (main stdout boto3 args))) /\
  (forall cursor limit out sid,
      In (EvCall (ReqGetRecords cursor limit) (Returned (RetRecords out)))
         (trace (main stdout boto3 args)) ->
      Argparse.shard_id args = PyStr sid ->
      List.length sid <= 20 ->
      Forall (fun r => List.length (SequenceNumber r) <= 60 /\
                       List.length (message_of r) <= 40)
             (Records out) ->
      Forall fixed_widths (printed (trace (main stdout boto3 args)))).
Proof.
  assert (Hheader : fixed_widths header_row).
  { rewrite <- header_row_eq. apply table_row_fits; simpl; lia. }
  assert (Hrule : fixed_widths separator_row).
  { rewrite <- separator_row_eq.
    apply table_row_fits; rewrite times_length; lia. }
  split; [assumption |]. split; [assumption |]. split; [reflexivity |]. split.
  - destruct (printed_main stdout boto3 args)
      as [-> | [cursor [limit [out [_ ->]]]]];
      [constructor |].
    constructor; [rewrite <- header_row_eq; apply table_row_minimum |].
    constructor; [rewrite <- separator_row_eq; apply table_row_minimum |].
    eapply Forall_impl; [| apply rows_printed_rows].
    intros row [sid [r [message [_ [_ [_ ->]]]]]]. apply table_row_minimum.
  - intros cursor limit out sid Hin Hsid Hshort Hfit.
    destruct (fetched_shape _ _ _ _ _ _ Hin) as [it [_ [_ Hshape]]].
    unfold trace. rewrite Hshape. cbn [fst]. rewrite printed_fetched.
    constructor; [assumption |]. constructor; [assumption |].
    eapply Forall_impl; [| apply rows_printed_rows].
    intros row [sid' [r [message [Hsid' [Hr [Hdec ->]]]]]].
    rewrite Hsid in Hsid'. injection Hsid' as <-.
    eapply Forall_forall in Hfit; [| exact Hr].
    unfold message_of in Hfit. rewrite Hdec in Hfit.
    apply table_row_fits; tauto.
Qed.

(** C7 at a run in which every value fits its column. *)
Lemma C7_witness :
  Forall fixed_widths
    (printed (trace (main utf8_stdout
                          (sample_boto3 [sample_record "4956" "hello"])
                          sample_args))).
Proof.
  apply (proj2 (proj2 (proj2 (proj2
           (C7_minimum_column_widths utf8_stdout
              (sample_boto3 [sample_record "4956" "hello"]) sample_args))))
         (lit "abc123") 200%Z
         {| Records := [sample_record "4956" "hello"];
            NextShardIterator := Some (lit "def456");
            MillisBehindLatest := 0 |}
         (lit "shardId-0001")).
  - vm_compute. right. right. left. reflexivity.
  - reflexivity.
  - vm_compute. lia.
  - repeat constructor; vm_compute; lia.
Defined.

(** C10.  Whenever the row of a record is printed, it holds the shard id,
    the sequence number and the decoded payload in full, each between
    runs of spaces only: a column is as wide as the longer of its format
    width and its content, and a value at least as long as the width
    (longer than 20, 60 or 40 characters in particular) is printed as it
    is, which widens the column for that row. *)
Theorem C10_long_values_are_printed_in_full
    (stdout : TextIO) (boto3 : Boto3) (args : Argparse.Namespace)
    (cursor : pystr) (limit : Z) (out : GetRecordsOutput)
    (i : nat) (r : KinesisRecord) (row : pystr) :
  In (EvCall (ReqGetRecords cursor limit) (Returned (RetRecords out)))
     (trace (main stdout boto3 args)) ->
  nth_error (Records out) i = Some r ->
  nth_error (printed (trace (main stdout boto3 args))) (2 + i) = Some row ->
  exists sid message c1 c2 c3,
    Argparse.shard_id args = PyStr sid /\
    Utf8.decode (Data r) = Some message /\
    row = c1 ++ [space] ++ c2 ++ [space] ++ c3 /\
    (exists l1 r1, c1 = times space l1 ++ sid ++ times space r1) /\
    (exists l2 r2, c2 = times space l2 ++ SequenceNumber r ++ times space r2) /\
    (exists l3 r3, c3 = times space l3 ++ message ++ times space r3) /\
    List.length c1 = Nat.max 20 (List.length sid) /\
    List.length c2 = Nat.max 60 (List.length (SequenceNumber r)) /\
    List.length c3 = Nat.max 40 (List.length message) /\
    (20 <= List.length sid -> c1 = sid) /\
    (60 <= List.length (SequenceNumber r) -> c2 = SequenceNumber r) /\
    (40 <= List.length message -> c3 = message).
Proof.
  intros Hin Hr Hrow.
  destruct (fetched_shape _ _ _ _ _ _ Hin) as [it [_ [_ Hshape]]].
  unfold trace in Hrow. rewrite Hshape in Hrow. cbn [fst] in Hrow.
  rewrite printed_fetched in Hrow. cbn [Nat.add nth_error] in Hrow.
  destruct (rows_printed_nth _ _ _ _ Hrow) as [r' [Hr' Htext]].
  rewrite Hr in Hr'. injection Hr' as <-.
  destruct (row_text_inr _ _ Htext) as [sid [message [Hsid [Hdec ->]]]].
  exists sid, message,
    (Format.format_str center20 sid),
    (Format.format_str center60 (SequenceNumber r)),
    (Format.format_str left40 message).
  split; [assumption |]. split; [assumption |]. split; [reflexivity |].
  split; [apply format_str_padding |].
  split; [apply format_str_padding |].
  split; [apply format_str_padding |].
  split; [now apply format_str_length |].
  split; [now apply format_str_length |].
  split; [now apply format_str_length |].
  split; [intros H; now apply (@format_str_wide center20 20) |].
  split; [intros H; now apply (@format_str_wide center60 60) |].
  intros H. now apply (@format_str_wide left40 40).
Qed.

(** C10 at a record whose payload has 41 characters. *)
Lemma C10_witness :
  exists sid message c1 c2 c3,
    Argparse.shard_id sample_args = PyStr sid /\
    Utf8.decode (Data (sample_record "4956" long_payload)) = Some message /\
    table_row (lit "shardId-0001") (lit "4956") (lit long_payload) =
    c1 ++ [space] ++ c2 ++ [space] ++ c3 /\
    (exists l1 r1, c1 = times space l1 ++ sid ++ times space r1) /\
    (exists l2 r2,
        c2 = times space l2 ++
             SequenceNumber (sample_record "4956" long_payload) ++
             times space r2) /\
    (exists l3 r3, c3 = times space l3 ++ message ++ times space r3) /\
    List.length c1 = Nat.max 20 (List.length sid) /\
    List.length c2 =
    Nat.max 60 (List.length
                  (SequenceNumber (sample_record "4956" long_payload))) /\
    List.length c3 = Nat.max 40 (List.length message) /\
    (20 <= List.length sid -> c1 = sid) /\
    (60 <= List.length (SequenceNumber (sample_record "4956" long_payload)) ->
     c2 = SequenceNumber (sample_record "4956" long_payload)) /\
    (40 <= List.length message -> c3 = message).
Proof.
  apply (@C10_long_values_are_printed_in_full utf8_stdout
           (sample_boto3 [sample_record "4956" long_payload]) sample_args
           (lit "abc123") 200%Z
           {| Records := [sample_record "4956" long_payload];
              NextShardIterator := Some (lit "def456");
              MillisBehindLatest := 0 |}
           0 (sample_record "4956" long_payload)).
  - vm_compute. right. right. left. reflexivity.
  - reflexivity.
  - reflexivity.
Defined.

(** ** The whole script *)

Lemma script_shape (stdout : TextIO) (boto3 : Boto3) (argv : list pystr) :
  script stdout boto3 argv =
  match Argparse.parse_args argv with
  | Argparse.Parsed args => main stdout boto3 args
  | Argparse.Exited code =>
      ([if (code =? 0)%Z then EvHelp else EvUsage], inl (SystemExit code))
  end.
Proof.
  unfold script. destruct (Argparse.parse_args argv) as [args | code].
  - apply bind_ret_l.
  - reflexivity.
Qed.

(** C8.  Whatever the command line, every [get_shard_iterator] call of
    the run asks for [TRIM_HORIZON], for the stream and the shard as
    parsed, and every [get_records] call passes [Limit=200]: no flag
    changes either value. *)
Theorem C8_iterator_type_and_limit_are_constants
    (stdout : TextIO) (boto3 : Boto3) (argv : list pystr) :
  Forall (fixed_parameters argv) (calls (trace (script stdout boto3 argv))).
Proof.
  unfold trace. rewrite script_shape.
  destruct (Argparse.parse_args argv) as [args | code] eqn:Hparse;
    [| destruct (code =? 0)%Z; constructor].
  rewrite main_shape.
  assert (Hit : forall rp,
             fixed_parameters argv
               (ReqGetShardIterator (Argparse.stream_name args)
                                    (Argparse.shard_id args) TRIM_HORIZON, rp)).
  { intros rp. split; [reflexivity |]. now exists args. }
  destruct (client boto3 _ _) as [name | kinesis]; cbn [fst calls].
  { constructor; [exact I | constructor]. }
  destruct (get_shard_iterator kinesis _ _ _) as [name | it];
    cbn [fst calls ev_client].
  { constructor; [exact I |]. constructor; [apply Hit | constructor]. }
  destruct (get_records kinesis _ _) as [name | out];
    cbn [fst calls ev_client ev_iterator ev_records].
  - constructor; [exact I |]. constructor; [apply Hit |].
    constructor; [reflexivity | constructor].
  - rewrite calls_map_print.
    constructor; [exact I |]. constructor; [apply Hit |].
    constructor; [reflexivity | constructor].
Qed.

(** ** Parsing a command line that leaves flags out *)

Lemma classify_option (arg : pystr) (a : option Argparse.action)
    (os : pystr) (e : option pystr) (rest : list pystr) :
  PyStr.eqb arg (lit "--") = false ->
  Argparse.parse_optional arg = Argparse.OptionTuple a os e ->
  Argparse.classify (arg :: rest) =
  option_map (cons (Argparse.MarkO arg a os e)) (Argparse.classify rest).
Proof. intros Hdd Hopt. cbn [Argparse.classify]. now rewrite Hdd, Hopt. Qed.

Lemma classify_argument (arg : pystr) (rest : list pystr) :
  plain (Some arg) = true ->
  Argparse.classify (arg :: rest) =
  option_map (cons (Argparse.MarkA arg)) (Argparse.classify rest).
Proof.
  intros Hplain. cbn [Argparse.classify].
  destruct arg as [| c arg]; [reflexivity |].
  cbn [plain] in Hplain.
  assert (Hc : (c =? dash)%N = false) by now destruct (c =? dash)%N.
  assert (Hdd : PyStr.eqb (c :: arg) (lit "--") = false).
  { change (lit "--") with [dash; dash]. cbn [PyStr.eqb]. now rewrite Hc. }
  rewrite Hdd. unfold Argparse.parse_optional. now rewrite Hc.
Qed.

Lemma get_values_plain (arg : pystr) :
  plain (Some arg) = true -> Argparse.get_values arg = PyStr arg.
Proof.
  intros Hplain. unfold Argparse.get_values.
  destruct arg as [| c arg]; [reflexivity |].
  cbn [plain] in Hplain.
  assert (Hc : (c =? dash)%N = false) by now destruct (c =? dash)%N.
  change (lit "--") with [dash; dash]. cbn [PyStr.eqb]. now rewrite Hc.
Qed.

Lemma classify_flag (name : string) (d : Argparse.dest)
    (value : option pystr) (rest : list pystr) :
  In (name, d) [("--stream-name"%string, Argparse.StreamName);
                ("--shard-id"%string, Argparse.ShardId);
                ("--region"%string, Argparse.Region)] ->
  plain value = true ->
  Argparse.classify (flag name value ++ rest) =
  option_map (app (flag_marks name d value)) (Argparse.classify rest).
Proof.
  intros Hname Hplain. destruct value as [v |]; cbn [flag flag_marks app].
  - destruct Hname as [[= <- <-] | [[= <- <-] | [[= <- <-] | []]]];
      (match goal with
       | |- context [Argparse.MarkO (lit ?n) (Some (Argparse.Store ?d'))] =>
           rewrite (@classify_option (lit n) (Some (Argparse.Store d'))
                                     (lit n) None _ eq_refl eq_refl)
       end;
       rewrite (classify_argument v _ Hplain);
       destruct (Argparse.classify rest); reflexivity).
  - destruct (Argparse.classify rest); reflexivity.
Qed.

Lemma consume_flag (name : string) (d : Argparse.dest) (value : option pystr)
    (marks : list Argparse.mark) (ns : Argparse.Namespace)
    (extras : list pystr) :
  plain value = true ->
  Argparse.consume (flag_marks name d value ++ marks) ns extras =
  Argparse.consume marks
    (match value with
     | Some v => Argparse.setattr ns d (PyStr v)
     | None => ns
     end) extras.
Proof.
  intros Hplain. destruct value as [v |]; [| reflexivity].
  cbn [flag_marks app Argparse.consume]. now rewrite get_values_plain.
Qed.

(** Any subset of the three flags parses, and a flag left out is [None]. *)
Lemma parse_command_line (stream shard region : option pystr) :
  plain stream = true -> plain shard = true -> plain region = true ->
  Argparse.parse_args (command_line stream shard region) =
  Argparse.Parsed {| Argparse.stream_name := given stream;
                     Argparse.shard_id := given shard;
                     Argparse.region := given region |}.
Proof.
  intros Hstream Hshard Hregion. unfold Argparse.parse_args, command_line.
  rewrite (@classify_flag _ Argparse.StreamName) by (simpl; tauto).
  rewrite (@classify_flag _ Argparse.ShardId) by (simpl; tauto).
  rewrite <- (app_nil_r (flag "--region" region)).
  rewrite (@classify_flag _ Argparse.Region) by (simpl; tauto).
  cbn [Argparse.classify option_map]. rewrite !consume_flag by assumption.
  destruct stream, shard, region; reflexivity.
Qed.

(** With a shard id that is a string the only exception the rendering of
    a row raises is the decoding error. *)
Lemma row_text_str_raises (sid : pystr) (record : KinesisRecord) (e : exn) :
  row_text (PyStr sid) record = inl e -> e = UnicodeDecodeError.
Proof.
  rewrite row_text_str. destruct (Utf8.decode (Data record)); [discriminate |].
  now intros [= <-].
Qed.

Lemma sample_validates (records : list KinesisRecord) :
  validates_parameters (sample_boto3 records).
Proof.
  intros service region_name kinesis StreamName ShardId type [= <-] Hstr.
  exists "ParamValidationError"%string.
  cbn [get_shard_iterator sample_client]. now rewrite Hstr.
Qed.

(** C9, as the specification states it, fails: that a missing value
    fails in a remote call is up to the SDK, not to the script.  With a
    client that accepts a missing shard id, as a test double does, and
    returns a record, a command line without [--shard-id] is parsed, both
    calls return, the header and the separator are printed, and the run
    fails locally: [format] refuses [None] at the first row. *)
Lemma C9_counterexample_local_failure :
  Argparse.parse_args
    (command_line (Some (lit "orders")) None (Some (lit "us-east-1"))) =
  Argparse.Parsed {| Argparse.stream_name := PyStr (lit "orders");
                     Argparse.shard_id := PyNone;
                     Argparse.region := PyStr (lit "us-east-1") |} /\
  outcome (script utf8_stdout (lenient_boto3 [sample_record "4956" "hello"])
                  (command_line (Some (lit "orders")) None
                                (Some (lit "us-east-1")))) = inl TypeError /\
  printed (trace (script utf8_stdout
                         (lenient_boto3 [sample_record "4956" "hello"])
                         (command_line (Some (lit "orders")) None
                                       (Some (lit "us-east-1"))))) =
  [header_row; separator_row] /\
  ~ fails_only_in_calls
      (script utf8_stdout (lenient_boto3 [sample_record "4956" "hello"])
              (command_line (Some (lit "orders")) None
                            (Some (lit "us-east-1")))).
Proof.
  split; [reflexivity |]. split; [reflexivity |]. split; [reflexivity |].
  intros Hcalls. destruct (Hcalls TypeError eq_refl) as [rq [name [_ Heq]]].
  discriminate.
Qed.

(** C9, amended.  The script does not validate its three inputs.  A
    command line that gives any subset of [--stream-name], [--shard-id]
    and [--region] (with values that do not start with a dash) is
    accepted by the parser, and a flag left out is [None] in the
    namespace.  [main] hands the values on as they are: the first thing
    the run does is the call [boto3.client('kinesis', region_name=...)]
    with the region as parsed, and if that returns, the next is
    [get_shard_iterator] with the stream name and the shard id as parsed.
    A call that raises ends the run with its exception.  When the SDK
    validates the parameters of a call, as botocore does, a run without
    stream name or without shard id ends with the exception of a call,
    with nothing printed and no fetch made, and the only exceptions of
    any such run that do not come from a call are the decoding error of
    a payload and the encoding error of [print]. *)
Theorem C9_omitted_flags_are_passed_on
    (stdout : TextIO) (boto3 : Boto3) (stream shard region : option pystr) :
  plain stream = true -> plain shard = true -> plain region = true ->
  let argv := command_line stream shard region in
  let args := {| Argparse.stream_name := given stream;
                 Argparse.shard_id := given shard;
                 Argparse.region := given region |} in
  Argparse.parse_args argv = Argparse.Parsed args /\
  script stdout boto3 argv = main stdout boto3 args /\
  (exists rp rest,
      trace (script stdout boto3 argv) =
      EvCall (ReqClient (lit "kinesis") (given region)) rp :: rest /\
      (rp = Returned RetClient ->
       exists rp' rest',
         rest = EvCall (ReqGetShardIterator (given stream) (given shard)
                                            TRIM_HORIZON) rp' :: rest')) /\
  (forall rq name,
      In (EvCall rq (Raised name)) (trace (script stdout boto3 argv)) ->
      outcome (script stdout boto3 argv) = inl (SdkError name)) /\
  (validates_parameters boto3 ->
   stream = None \/ shard = None ->
   exists rq name,
     In (EvCall rq (Raised name)) (trace (script stdout boto3 argv)) /\
     outcome (script stdout boto3 argv) = inl (SdkError name) /\
     printed (trace (script stdout boto3 argv)) = [] /\
     filter is_get_records (calls (trace (script stdout boto3 argv))) = []) /\
  (validates_parameters boto3 ->
   forall e,
     outcome (script stdout boto3 argv) = inl e ->
     (exists rq name,
         In (EvCall rq (Raised name)) (trace (script stdout boto3 argv)) /\
         e = SdkError name) \/
     e = UnicodeDecodeError \/ e = UnicodeEncodeError).
Proof.
  intros Hstream Hshard Hregion argv args.
  assert (Hparse : Argparse.parse_args argv = Argparse.Parsed args)
    by now apply parse_command_line.
  assert (Hscript : script stdout boto3 argv = main stdout boto3 args)
    by now rewrite script_shape, Hparse.
  split; [assumption |]. split; [assumption |].
  unfold trace, outcome. rewrite Hscript, main_shape.
  cbn [Argparse.stream_name Argparse.shard_id Argparse.region args].
  destruct (client boto3 (lit "kinesis") (given region))
    as [name0 | kinesis] eqn:Hclient; cbn [fst snd].
  { split; [eexists _, _; split; [reflexivity | discriminate] |].
    split; [now intros rq name [[= _ ->] | []] |].
    split.
    - intros _ _. eexists _, name0. split; [left; reflexivity |].
      repeat split; reflexivity.
    - intros _ e [= <-]. left. eexists _, name0.
      split; [left; reflexivity | reflexivity]. }
  destruct (get_shard_iterator kinesis (given stream) (given shard)
                               TRIM_HORIZON)
    as [name0 | it] eqn:Hiterator; cbn [fst snd].
  { split; [eexists _, _; split; [reflexivity | intros _; eexists _, _; reflexivity] |].
    split; [now intros rq name [[=] | [[= _ ->] | []]] |].
    split.
    - intros _ _. eexists _, name0. split; [right; left; reflexivity |].
      repeat split; reflexivity.
    - intros _ e [= <-]. left. eexists _, name0.
      split; [right; left; reflexivity | reflexivity]. }
  assert (Hstr : validates_parameters boto3 ->
                 exists s1 s2, stream = Some s1 /\ shard = Some s2).
  { intros Hval. destruct stream as [s1 |], shard as [s2 |];
      try (now exists s1, s2);
      match type of Hiterator with
      | get_shard_iterator _ ?a ?b _ = _ =>
          destruct (Hval _ _ _ a b TRIM_HORIZON Hclient eq_refl)
            as [name Hname]
      end;
      congruence. }
  destruct (get_records kinesis (ShardIterator it) 200)
    as [name0 | out] eqn:Hrecords; cbn [fst snd].
  { split; [eexists _, _; split; [reflexivity | intros _; eexists _, _; reflexivity] |].
    split; [now intros rq name [[=] | [[=] | [[= _ ->] | []]]] |].
    split.
    - intros Hval [-> | ->]; destruct (Hstr Hval) as [s1 [s2 [[=] [=]]]].
    - intros _ e [= <-]. left. eexists _, name0.
      split; [right; right; left; reflexivity | reflexivity]. }
  split; [eexists _, _; split; [reflexivity | intros _; eexists _, _; reflexivity] |].
  split.
  { intros rq name [[=] | [[=] | [[=] | [[=] | [[=] | Hin]]]]].
    exfalso. eapply in_map_print_call; eassumption. }
  split.
  - intros Hval [-> | ->]; destruct (Hstr Hval) as [s1 [s2 [[=] [=]]]].
  - intros Hval e He. right.
    destruct (Hstr Hval) as [s1 [s2 [_ ->]]]. cbn [given] in He.
    destruct (rows_printed_prefix stdout (PyStr s2) (Records out))
      as [k [_ Hend]].
    rewrite He in Hend. destruct Hend as [_ [r [_ Hr]]].
    apply row_out_inl in Hr. destruct Hr as [Hr | [-> _]]; [| now right].
    left. eapply row_text_str_raises; eassumption.
Qed.

(** C9 at a command line without [--shard-id], with the sample service,
    which validates parameters. *)
Lemma C9_witness :
  Argparse.parse_args
    (command_line (Some (lit "orders")) None (Some (lit "us-east-1"))) =
  Argparse.Parsed {| Argparse.stream_name := PyStr (lit "orders");
                     Argparse.shard_id := PyNone;
                     Argparse.region := PyStr (lit "us-east-1") |} /\
  exists rq name,
    In (EvCall rq (Raised name))
       (trace (script utf8_stdout (sample_boto3 [sample_record "4956" "hello"])
                      (command_line (Some (lit "orders")) None
                                    (Some (lit "us-east-1"))))) /\
    outcome (script utf8_stdout (sample_boto3 [sample_record "4956" "hello"])
                    (command_line (Some (lit "orders")) None
                                  (Some (lit "us-east-1")))) =
    inl (SdkError name) /\
    printed (trace (script utf8_stdout
                           (sample_boto3 [sample_record "4956" "hello"])
                           (command_line (Some (lit "orders")) None
                                         (Some (lit "us-east-1"))))) = [] /\
    filter is_get_records
      (calls (trace (script utf8_stdout
                            (sample_boto3 [sample_record "4956" "hello"])
                            (command_line (Some (lit "orders")) None
                                          (Some (lit "us-east-1")))))) = [].
Proof.
  destruct (@C9_omitted_flags_are_passed_on utf8_stdout
              (sample_boto3 [sample_record "4956" "hello"])
              (Some (lit "orders")) None (Some (lit "us-east-1"))
              eq_refl eq_refl eq_refl)
    as [Hparse [_ [_ [_ [Hvalidated _]]]]].
  split; [exact Hparse |].
  apply Hvalidated; [apply sample_validates | right; reflexivity].
Defined.

(* ===================================================================== *)
(** * Concrete runs *)
(* ===================================================================== *)

(** The decoder on well-formed and ill-formed input: ASCII, a three-byte
    sequence, the largest code point, an over-long form, a surrogate, a
    truncated sequence. *)
Example decode_ascii :
  Utf8.decode (Utf8.of_lit "hello") = Some (lit "hello").
Proof. reflexivity. Qed.

Example decode_euro_sign :
  Utf8.decode [Byte.xe2; Byte.x82; Byte.xac] = Some [0x20AC%N].
Proof. reflexivity. Qed.

Example decode_last_code_point :
  Utf8.decode [Byte.xf4; Byte.x8f; Byte.xbf; Byte.xbf] = Some [0x10FFFF%N].
Proof. reflexivity. Qed.

Example decode_overlong :
  Utf8.decode [Byte.xc0; Byte.x80] = None.
Proof. reflexivity. Qed.

Example decode_surrogate :
  Utf8.decode [Byte.xed; Byte.xa0; Byte.x80] = None.
Proof. reflexivity. Qed.

Example decode_truncated :
  Utf8.decode [Byte.x68; Byte.xe2; Byte.x82] = None.
Proof. reflexivity. Qed.

(** The parser: no flag is required, abbreviations are accepted, a flag
    without its value and an unknown argument are errors, [-h] exits
    with 0. *)
Example parse_nothing :
  Argparse.parse_args [] = Argparse.Parsed Argparse.empty_namespace.
Proof. reflexivity. Qed.

Example parse_abbreviation :
  Argparse.parse_args [lit "--reg=us-east-1"; lit "--st"; lit "orders"] =
  Argparse.Parsed {| Argparse.stream_name := PyStr (lit "orders");
                     Argparse.shard_id := PyNone;
                     Argparse.region := PyStr (lit "us-east-1") |}.
Proof. reflexivity. Qed.

Example parse_ambiguous :
  Argparse.parse_args [lit "--s"; lit "orders"] = Argparse.Exited 2.
Proof. reflexivity. Qed.

Example parse_missing_value :
  Argparse.parse_args [lit "--region"] = Argparse.Exited 2.
Proof. reflexivity. Qed.

Example parse_unknown :
  Argparse.parse_args [lit "--limit"; lit "10"] = Argparse.Exited 2.
Proof. reflexivity. Qed.

Example parse_help :
  Argparse.parse_args [lit "--region"; lit "eu-west-1"; lit "-h"] =
  Argparse.Exited 0.
Proof. reflexivity. Qed.

(** The run of the script on stream [orders], shard [shardId-0001], region
    [us-east-1], when the service hands out the cursor [abc123] and one
    record with sequence number [4956] and payload [hello]. *)
Example end_to_end :
  script utf8_stdout (sample_boto3 [sample_record "4956" "hello"])
         [lit "--stream-name"; lit "orders";
          lit "--shard-id"; lit "shardId-0001";
          lit "--region"; lit "us-east-1"] =
  ([EvCall (ReqClient (lit "kinesis") (PyStr (lit "us-east-1")))
           (Returned RetClient);
    EvCall (ReqGetShardIterator (PyStr (lit "orders"))
                                (PyStr (lit "shardId-0001")) TRIM_HORIZON)
           (Returned (RetShardIterator {| ShardIterator := lit "abc123" |}));
    EvCall (ReqGetRecords (lit "abc123") 200)
           (Returned (RetRecords
                        {| Records := [sample_record "4956" "hello"];
                           NextShardIterator := Some (lit "def456");
                           MillisBehindLatest := 0 |}));
    EvPrint header_row;
    EvPrint separator_row;
    EvPrint (lit "    shardId-0001                                 4956                             hello                                   ")],
   inr tt).
Proof. reflexivity. Qed.

(** The same service with a second record that holds a euro sign, when
    standard output is opened as ASCII: the run stops at the second row. *)
Example ascii_output_stops_at_euro_sign :
  main ascii_stdout
       (sample_boto3 [sample_record "4956" "hello"; euro_record "4957"])
       sample_args =
  ([EvCall (ReqClient (lit "kinesis") (PyStr (lit "us-east-1")))
           (Returned RetClient);
    EvCall (ReqGetShardIterator (PyStr (lit "orders"))
                                (PyStr (lit "shardId-0001")) TRIM_HORIZON)
           (Returned (RetShardIterator {| ShardIterator := lit "abc123" |}));
    EvCall (ReqGetRecords (lit "abc123") 200)
           (Returned (RetRecords
                        {| Records := [sample_record "4956" "hello";
                                       euro_record "4957"];
                           NextShardIterator := Some (lit "def456");
                           MillisBehindLatest := 0 |}));
    EvPrint header_row;
    EvPrint separator_row;
    EvPrint (table_row (lit "shardId-0001") (lit "4956") (lit "hello"))],
   inl UnicodeEncodeError).
Proof. reflexivity. Qed.

(** A shard id that holds the lone surrogate U+DC80, which is what an
    undecodable byte of the command line becomes, cannot be written to a
    UTF-8 output: no data row is printed. *)
Example surrogate_in_shard_id :
  let run := script utf8_stdout (sample_boto3 [sample_record "4956" "hello"])
                    [lit "--stream-name"; lit "orders";
                     lit "--shard-id"; lit "shard" ++ [0xDC80%N];
                     lit "--region"; lit "us-east-1"] in
  outcome run = inl UnicodeEncodeError /\
  printed (trace run) = [header_row; separator_row].
Proof. split; reflexivity. Qed.

(** A command line the parser refuses never reaches [main]. *)
Example run_with_unknown_flag :
  script utf8_stdout (sample_boto3 []) [lit "--limit"; lit "10"] =
  ([EvUsage], inl (SystemExit 2)).
Proof. reflexivity. Qed.

(* ===================================================================== *)
(** * Further properties of the script *)
(* ===================================================================== *)

(** ** The order of calls and output *)

Lemma rows_printed_length (stdout : TextIO) (shard_id : pyval)
    (records : list KinesisRecord) :
  List.length (fst (rows_printed stdout shard_id records)) <=
  List.length records.
Proof.
  induction records as [| record records IH]; [reflexivity |].
  cbn [rows_printed].
  destruct (row_out stdout shard_id record); cbn [fst List.length]; lia.
Qed.

(** X1.  Every run of [main] first calls into the SDK and then prints,
    never the other way round.  The calls are an initial part of the
    plan [boto3.client('kinesis', region)], [get_shard_iterator(stream,
    shard, TRIM_HORIZON)], [get_records(cursor, 200)], each made at most
    once, and every call but the last one made has returned.  The run
    goes one of two ways.  Either the last call made raised: then this
    exception ends the run and nothing is printed.  Or all three calls
    returned, the third one with the cursor the second one returned:
    then the header and the separator are printed, followed by at most
    one row for each record of the batch. *)
Theorem main_calls_then_prints
    (stdout : TextIO) (boto3 : Boto3) (args : Argparse.Namespace) :
  exists cs rows cursor,
    trace (main stdout boto3 args) =
    List.map call_event cs ++ List.map EvPrint rows /\
    1 <= List.length cs <= 3 /\
    List.map fst cs = firstn (List.length cs) (call_plan args cursor) /\
    Forall has_returned (removelast cs) /\
    (rows <> [] -> List.length cs = 3 /\ Forall has_returned cs) /\
    ((exists cs0 rq name,
         cs = cs0 ++ [(rq, Raised name)] /\
         rows = [] /\
         outcome (main stdout boto3 args) = inl (SdkError name))
     \/
     (exists it out data,
         List.map snd cs = [Returned RetClient;
                            Returned (RetShardIterator it);
                            Returned (RetRecords out)] /\
         cursor = ShardIterator it /\
         rows = header_row :: separator_row :: data /\
         List.length data <= List.length (Records out))).
Proof.
  assert (Hret : forall rq v, has_returned (rq, Returned v))
    by (intros rq v; now exists v).
  unfold trace, outcome. rewrite main_shape.
  destruct (client boto3 _ _) as [name | kinesis]; cbn [fst snd].
  { exists [(ReqClient (lit "kinesis") (Argparse.region args), Raised name)],
      [], [].
    cbn [removelast List.length].
    split; [reflexivity |]. split; [lia |]. split; [reflexivity |].
    split; [constructor |]. split; [congruence |].
    left. exists [], (ReqClient (lit "kinesis") (Argparse.region args)), name.
    repeat split. }
  destruct (get_shard_iterator kinesis _ _ _) as [name | it]; cbn [fst snd].
  { exists [(ReqClient (lit "kinesis") (Argparse.region args),
             Returned RetClient);
            (ReqGetShardIterator (Argparse.stream_name args)
                                 (Argparse.shard_id args) TRIM_HORIZON,
             Raised name)], [], [].
    cbn [removelast List.length].
    split; [reflexivity |]. split; [lia |]. split; [reflexivity |].
    split; [repeat constructor; apply Hret |]. split; [congruence |].
    left. eexists [_], _, name. repeat split. }
  destruct (get_records kinesis _ _) as [name | out]; cbn [fst snd].
  { exists [(ReqClient (lit "kinesis") (Argparse.region args),
             Returned RetClient);
            (ReqGetShardIterator (Argparse.stream_name args)
                                 (Argparse.shard_id args) TRIM_HORIZON,
             Returned (RetShardIterator it));
            (ReqGetRecords (ShardIterator it) 200, Raised name)],
      [], (ShardIterator it).
    cbn [removelast List.length].
    split; [reflexivity |]. split; [lia |]. split; [reflexivity |].
    split; [repeat constructor; apply Hret |]. split; [congruence |].
    left. eexists [_; _], _, name. repeat split. }
  exists [(ReqClient (lit "kinesis") (Argparse.region args),
           Returned RetClient);
          (ReqGetShardIterator (Argparse.stream_name args)
                               (Argparse.shard_id args) TRIM_HORIZON,
           Returned (RetShardIterator it));
          (ReqGetRecords (ShardIterator it) 200, Returned (RetRecords out))],
    (header_row :: separator_row ::
     fst (rows_printed stdout (Argparse.shard_id args) (Records out))),
    (ShardIterator it).
  cbn [removelast List.length].
  split; [reflexivity |]. split; [lia |]. split; [reflexivity |].
  split; [repeat constructor; apply Hret |].
  split; [intros _; split; [reflexivity | repeat constructor; apply Hret] |].
  right. exists it, out. eexists.
  split; [reflexivity |]. split; [reflexivity |]. split; [reflexivity |].
  apply rows_printed_length.
Qed.

(** ** What the output depends on *)

Lemma rows_printed_shown (stdout : TextIO) (shard_id : pyval)
    (records records' : list KinesisRecord) :
  List.map shown records = List.map shown records' ->
  rows_printed stdout shard_id records = rows_printed stdout shard_id records'.
Proof.
  revert records'.
  induction records as [| r records IH]; intros [| r' records'];
    try discriminate; [reflexivity |].
  cbn [List.map]. intros [= Hseq Hdata Hrest].
  cbn [rows_printed]. unfold row_out, row_text.
  rewrite Hseq, Hdata, (IH _ Hrest).
  reflexivity.
Qed.

(** X2.  What a run prints, and how it ends once the batch is fetched,
    depends on the shard id and on the sequence numbers and payloads of
    the records only: two runs that agree on these print the same lines
    and end the same way, whatever the stream name, the region, the
    cursor, the partition keys, [NextShardIterator] and
    [MillisBehindLatest] are. *)
Theorem output_depends_on_shard_id_and_records
    (stdout : TextIO) (boto3 boto3' : Boto3) (args args' : Argparse.Namespace)
    (cursor cursor' : pystr) (limit limit' : Z)
    (out out' : GetRecordsOutput) :
  In (EvCall (ReqGetRecords cursor limit) (Returned (RetRecords out)))
     (trace (main stdout boto3 args)) ->
  In (EvCall (ReqGetRecords cursor' limit') (Returned (RetRecords out')))
     (trace (main stdout boto3' args')) ->
  Argparse.shard_id args = Argparse.shard_id args' ->
  List.map shown (Records out) = List.map shown (Records out') ->
  printed (trace (main stdout boto3 args)) =
  printed (trace (main stdout boto3' args')) /\
  outcome (main stdout boto3 args) = outcome (main stdout boto3' args').
Proof.
  intros Hin Hin' Hshard Hshown.
  destruct (fetched_shape _ _ _ _ _ _ Hin) as [it [_ [_ Hshape]]].
  destruct (fetched_shape _ _ _ _ _ _ Hin') as [it' [_ [_ Hshape']]].
  unfold trace, outcome. rewrite Hshape, Hshape'. cbn [fst snd].
  rewrite !printed_fetched, Hshard, (rows_printed_shown _ _ _ _ Hshown).
  split; reflexivity.
Qed.

(** X2 at two runs that differ in stream, region and partition key. *)
Lemma output_depends_on_shard_id_and_records_witness :
  printed (trace (main utf8_stdout (sample_boto3 [sample_record "4956" "hello"])
                       sample_args)) =
  printed (trace (main utf8_stdout (lenient_boto3
                          [{| SequenceNumber := lit "4956";
                              Data := Utf8.of_lit "hello";
                              PartitionKey := lit "another key" |}])
                       {| Argparse.stream_name := PyStr (lit "invoices");
                          Argparse.shard_id := PyStr (lit "shardId-0001");
                          Argparse.region := PyNone |})) /\
  outcome (main utf8_stdout (sample_boto3 [sample_record "4956" "hello"])
                sample_args) =
  outcome (main utf8_stdout (lenient_boto3
                   [{| SequenceNumber := lit "4956";
                       Data := Utf8.of_lit "hello";
                       PartitionKey := lit "another key" |}])
                {| Argparse.stream_name := PyStr (lit "invoices");
                   Argparse.shard_id := PyStr (lit "shardId-0001");
                   Argparse.region := PyNone |}).
Proof.
  apply (@output_depends_on_shard_id_and_records utf8_stdout
           (sample_boto3 [sample_record "4956" "hello"])
           (lenient_boto3
              [{| SequenceNumber := lit "4956";
                  Data := Utf8.of_lit "hello";
                  PartitionKey := lit "another key" |}])
           sample_args
           {| Argparse.stream_name := PyStr (lit "invoices");
              Argparse.shard_id := PyStr (lit "shardId-0001");
              Argparse.region := PyNone |}
           (lit "abc123") (lit "abc123") 200%Z 200%Z
           {| Records := [sample_record "4956" "hello"];
              NextShardIterator := Some (lit "def456");
              MillisBehindLatest := 0 |}
           {| Records := [{| SequenceNumber := lit "4956";
                             Data := Utf8.of_lit "hello";
                             PartitionKey := lit "another key" |}];
              NextShardIterator := None;
              MillisBehindLatest := 0 |}).
  - vm_compute. right. right. left. reflexivity.
  - vm_compute. right. right. left. reflexivity.
  - reflexivity.
  - reflexivity.
Defined.

(** ** A shard id that is not a string *)

(** X3.  When the shard id is not a string ([None] for a flag left out)
    and the SDK nevertheless returns a batch that is not empty, the run
    prints the header and the separator and then fails at the first
    record: with [UnicodeDecodeError] when its payload is ill-formed, as
    the payload is decoded before the row is formatted, and with
    [TypeError] otherwise.  No data row is printed. *)
Theorem shard_id_not_a_string_fails_at_first_record
    (stdout : TextIO) (boto3 : Boto3) (args : Argparse.Namespace)
    (cursor : pystr) (limit : Z) (out : GetRecordsOutput)
    (r : KinesisRecord) (rest : list KinesisRecord) :
  In (EvCall (ReqGetRecords cursor limit) (Returned (RetRecords out)))
     (trace (main stdout boto3 args)) ->
  is_str (Argparse.shard_id args) = false ->
  Records out = r :: rest ->
  printed (trace (main stdout boto3 args)) = [header_row; separator_row] /\
  outcome (main stdout boto3 args) =
  inl (if Utf8.valid (Data r) then TypeError else UnicodeDecodeError).
Proof.
  intros Hin Hshard Hrecords.
  destruct (fetched_shape _ _ _ _ _ _ Hin) as [it [_ [_ Hshape]]].
  unfold trace, outcome. rewrite Hshape, Hrecords. cbn [fst snd rows_printed].
  assert (Hrow : row_out stdout (Argparse.shard_id args) r =
                 inl (if Utf8.valid (Data r)
                      then TypeError else UnicodeDecodeError)).
  { unfold row_out, row_text, Utf8.valid.
    destruct (Utf8.decode (Data r)); [| reflexivity].
    now rewrite format_not_a_string. }
  rewrite Hrow. cbn [fst snd]. rewrite printed_fetched. split; reflexivity.
Qed.

(** X3 at a client that accepts a missing shard id. *)
Lemma shard_id_not_a_string_witness :
  printed (trace (main utf8_stdout
                       (lenient_boto3 [sample_record "4956" "hello"])
                       {| Argparse.stream_name := PyStr (lit "orders");
                          Argparse.shard_id := PyNone;
                          Argparse.region := PyStr (lit "us-east-1") |})) =
  [header_row; separator_row] /\
  outcome (main utf8_stdout (lenient_boto3 [sample_record "4956" "hello"])
                {| Argparse.stream_name := PyStr (lit "orders");
                   Argparse.shard_id := PyNone;
                   Argparse.region := PyStr (lit "us-east-1") |}) =
  inl TypeError.
Proof.
  apply (@shard_id_not_a_string_fails_at_first_record utf8_stdout
           (lenient_boto3 [sample_record "4956" "hello"])
           {| Argparse.stream_name := PyStr (lit "orders");
              Argparse.shard_id := PyNone;
              Argparse.region := PyStr (lit "us-east-1") |}
           (lit "abc123") 200%Z
           {| Records := [sample_record "4956" "hello"];
              NextShardIterator := None;
              MillisBehindLatest := 0 |}
           (sample_record "4956" "hello") []).
  - vm_compute. right. right. left. reflexivity.
  - reflexivity.
  - reflexivity.
Defined.

(** ** The layout of a data row *)

(** A printed data row is the table row of its record. *)
Lemma printed_row_is_table_row
    (stdout : TextIO) (boto3 : Boto3) (args : Argparse.Namespace)
    (cursor : pystr) (limit : Z) (out : GetRecordsOutput)
    (i : nat) (r : KinesisRecord) (row : pystr) :
  In (EvCall (ReqGetRecords cursor limit) (Returned (RetRecords out)))
     (trace (main stdout boto3 args)) ->
  nth_error (Records out) i = Some r ->
  nth_error (printed (trace (main stdout boto3 args))) (2 + i) = Some row ->
  exists sid message,
    Argparse.shard_id args = PyStr sid /\
    Utf8.decode (Data r) = Some message /\
    row = table_row sid (SequenceNumber r) message.
Proof.
  intros Hin Hr Hrow.
  destruct (fetched_shape _ _ _ _ _ _ Hin) as [it [_ [_ Hshape]]].
  unfold trace in Hrow. rewrite Hshape in Hrow. cbn [fst] in Hrow.
  rewrite printed_fetched in Hrow. cbn [Nat.add nth_error] in Hrow.
  destruct (rows_printed_nth _ _ _ _ Hrow) as [r' [Hr' Htext]].
  rewrite Hr in Hr'. injection Hr' as <-.
  now apply row_text_inr.
Qed.

(** X4.  In the row printed for a record, when the shard id has at most 20
    characters and the sequence number at most 60, the columns sit at
    fixed offsets: the shard id is centred in the first 20 characters
    (the odd space on its right), characters 20 and 81 are the separating
    spaces, and the message starts at offset 82, followed only by the
    spaces that fill it up to 40 characters. *)
Theorem message_starts_at_offset_82
    (stdout : TextIO) (boto3 : Boto3) (args : Argparse.Namespace)
    (cursor : pystr) (limit : Z) (out : GetRecordsOutput)
    (i : nat) (r : KinesisRecord) (row sid message : pystr) :
  In (EvCall (ReqGetRecords cursor limit) (Returned (RetRecords out)))
     (trace (main stdout boto3 args)) ->
  nth_error (Records out) i = Some r ->
  nth_error (printed (trace (main stdout boto3 args))) (2 + i) = Some row ->
  Argparse.shard_id args = PyStr sid ->
  Utf8.decode (Data r) = Some message ->
  List.length sid <= 20 ->
  List.length (SequenceNumber r) <= 60 ->
  firstn 20 row =
  times space ((20 - List.length sid) / 2) ++ sid ++
  times space (20 - List.length sid - (20 - List.length sid) / 2) /\
  nth_error row 20 = Some space /\
  nth_error row 81 = Some space /\
  skipn 82 row = message ++ times space (40 - List.length message).
Proof.
  intros Hin Hr Hrow Hsid Hdec Hshort1 Hshort2.
  destruct (printed_row_is_table_row _ _ _ _ _ _ _ Hin Hr Hrow)
    as [sid' [message' [Hsid' [Hdec' ->]]]].
  rewrite Hsid in Hsid'. injection Hsid' as <-.
  rewrite Hdec in Hdec'. injection Hdec' as <-.
  unfold table_row.
  assert (Hc1 : Format.format_str center20 sid =
                times space ((20 - List.length sid) / 2) ++ sid ++
                times space (20 - List.length sid -
                             (20 - List.length sid) / 2)).
  { unfold Format.format_str, Format.calc_padding.
    cbn [center20 Format.sp_align Format.sp_width].
    destruct (Nat.ltb_spec 20 (List.length sid)); [lia | reflexivity]. }
  assert (Hc3 : Format.format_str left40 message =
                message ++ times space (40 - List.length message)).
  { unfold Format.format_str, Format.calc_padding.
    cbn [left40 Format.sp_align Format.sp_width].
    destruct (Nat.ltb_spec 40 (List.length message)) as [Hlt | Hge].
    - replace (List.length message - List.length message - 0) with 0 by lia.
      replace (40 - List.length message) with 0 by lia. reflexivity.
    - rewrite Nat.sub_0_r. reflexivity. }
  rewrite <- Hc1, <- Hc3.
  set (c1 := Format.format_str center20 sid).
  set (c2 := Format.format_str center60 (SequenceNumber r)).
  set (c3 := Format.format_str left40 message).
  assert (H1 : List.length c1 = 20).
  { unfold c1. rewrite (@format_str_length center20 20) by reflexivity. lia. }
  assert (H2 : List.length c2 = 60).
  { unfold c2. rewrite (@format_str_length center60 60) by reflexivity. lia. }
  split.
  { rewrite firstn_app, H1, Nat.sub_diag, firstn_O, app_nil_r.
    rewrite <- H1. apply firstn_all. }
  split.
  { rewrite nth_error_app2 by lia. rewrite H1. reflexivity. }
  split.
  { rewrite nth_error_app2 by lia. rewrite H1.
    change (nth_error ([space] ++ c2 ++ [space] ++ c3) (81 - 20))
      with (nth_error (c2 ++ [space] ++ c3) 60).
    rewrite nth_error_app2 by lia. rewrite H2. reflexivity. }
  rewrite skipn_app, H1, skipn_all2 by lia.
  change (skipn (82 - 20) ([space] ++ c2 ++ [space] ++ c3))
    with (skipn 61 (c2 ++ [space] ++ c3)).
  rewrite skipn_app, H2, skipn_all2 by lia. reflexivity.
Qed.

(** X4 at the sample record. *)
Lemma message_starts_at_offset_82_witness :
  firstn 20 (table_row (lit "shardId-0001") (lit "4956") (lit "hello")) =
  times space 4 ++ lit "shardId-0001" ++ times space 4 /\
  nth_error (table_row (lit "shardId-0001") (lit "4956") (lit "hello")) 20 =
  Some space /\
  nth_error (table_row (lit "shardId-0001") (lit "4956") (lit "hello")) 81 =
  Some space /\
  skipn 82 (table_row (lit "shardId-0001") (lit "4956") (lit "hello")) =
  lit "hello" ++ times space 35.
Proof.
  apply (@message_starts_at_offset_82 utf8_stdout
           (sample_boto3 [sample_record "4956" "hello"]) sample_args
           (lit "abc123") 200%Z
           {| Records := [sample_record "4956" "hello"];
              NextShardIterator := Some (lit "def456");
              MillisBehindLatest := 0 |}
           0 (sample_record "4956" "hello")
           (table_row (lit "shardId-0001") (lit "4956") (lit "hello"))
           (lit "shardId-0001") (lit "hello")).
  - vm_compute. right. right. left. reflexivity.
  - reflexivity.
  - reflexivity.
  - reflexivity.
  - reflexivity.
  - vm_compute. lia.
  - vm_compute. lia.
Defined.

(** ** Physical lines of the output *)

Lemma newlines_app (s t : pystr) : newlines (s ++ t) = newlines s + newlines t.
Proof. apply count_occ_app. Qed.

Lemma newlines_spaces (n : nat) : newlines (times space n) = 0.
Proof.
  induction n as [| n IH]; [reflexivity |].
  unfold newlines, times in *. cbn [repeat count_occ].
  destruct (N.eq_dec space newline) as [Heq | _]; [discriminate | exact IH].
Qed.

Lemma newlines_format_str (sp : Format.spec) (s : pystr) :
  newlines (Format.format_str sp s) = newlines s.
Proof.
  destruct (format_str_padding sp s) as [l [r ->]].
  rewrite !newlines_app, !newlines_spaces. lia.
Qed.

Lemma newlines_table_row (a b c : pystr) :
  newlines (table_row a b c) = newlines a + newlines b + newlines c.
Proof.
  unfold table_row. rewrite !newlines_app, !newlines_format_str.
  change (newlines [space]) with 0. lia.
Qed.

Lemma list_sum_cons (x : nat) (l : list nat) :
  list_sum (x :: l) = x + list_sum l.
Proof. reflexivity. Qed.

Lemma newlines_lines (lines : list pystr) :
  newlines (flat_map (fun line => line ++ [newline]) lines) =
  list_sum (List.map (fun line => 1 + newlines line) lines).
Proof.
  induction lines as [| line lines IH]; [reflexivity |].
  cbn [flat_map List.map]. rewrite list_sum_cons, !newlines_app, IH.
  change (newlines [newline]) with 1. lia.
Qed.

(** X5.  [print] writes a row as it is: a newline inside the shard id, a
    sequence number or a payload is not escaped.  When the payloads are
    well-formed and standard output can encode every value shown, so that
    the whole batch is printed, the output holds one newline for each of
    the 2 + N rows and one more for every newline inside a value shown;
    so it has exactly 2 + N physical lines if and only if no value shown
    holds a newline. *)
Theorem newlines_in_values_are_not_escaped
    (stdout : TextIO) (boto3 : Boto3) (args : Argparse.Namespace)
    (cursor : pystr) (limit : Z) (out : GetRecordsOutput) (sid : pystr) :
  In (EvCall (ReqGetRecords cursor limit) (Returned (RetRecords out)))
     (trace (main stdout boto3 args)) ->
  Argparse.shard_id args = PyStr sid ->
  Forall (fun r => Utf8.valid (Data r) = true) (Records out) ->
  writable stdout sid = true ->
  Forall (shows_writable stdout) (Records out) ->
  newlines (stdout_text (trace (main stdout boto3 args))) =
  2 + List.length (Records out) +
  list_sum (List.map (fun r => newlines sid + newlines (SequenceNumber r) +
                               newlines (message_of r))
                     (Records out)) /\
  (newlines (stdout_text (trace (main stdout boto3 args))) =
   2 + List.length (Records out) <->
   Forall (fun r => newlines sid + newlines (SequenceNumber r) +
                    newlines (message_of r) = 0)
          (Records out)).
Proof.
  intros Hin Hsid Hvalid Hwsid Hshow.
  destruct (fetched_shape _ _ _ _ _ _ Hin) as [it [_ [_ Hshape]]].
  assert (Hcount :
            newlines (stdout_text (trace (main stdout boto3 args))) =
            2 + List.length (Records out) +
            list_sum (List.map (fun r => newlines sid +
                                         newlines (SequenceNumber r) +
                                         newlines (message_of r))
                               (Records out))).
  { unfold stdout_text, trace. rewrite Hshape, Hsid. cbn [fst].
    rewrite printed_fetched,
      (@rows_printed_valid stdout sid _ Hvalid Hwsid Hshow).
    cbn [fst]. rewrite newlines_lines. cbn [List.map]. rewrite !list_sum_cons.
    change (newlines header_row) with 0.
    change (newlines separator_row) with 0.
    clear. induction (Records out) as [| r records IH]; [reflexivity |].
    cbn [List.map List.length] in *. rewrite !list_sum_cons.
    rewrite newlines_table_row. lia. }
  split; [exact Hcount |]. rewrite Hcount. clear.
  induction (Records out) as [| r records IH].
  - split; [constructor | reflexivity].
  - cbn [List.map List.length]. rewrite list_sum_cons. split.
    + intros Hsum. constructor; [lia |]. apply IH. lia.
    + intros Hall. inversion Hall as [| ? ? Hr Hrest]; subst.
      apply IH in Hrest. lia.
Qed.

(** X5 at a payload of two lines. *)
Lemma newlines_in_values_witness :
  newlines (stdout_text
              (trace (main utf8_stdout (sample_boto3
                              [{| SequenceNumber := lit "4956";
                                  Data := [Byte.x61; Byte.x0a; Byte.x62];
                                  PartitionKey := lit "pk" |}])
                           sample_args))) = 4.
Proof.
  apply (proj1 (@newlines_in_values_are_not_escaped utf8_stdout
                  (sample_boto3
                     [{| SequenceNumber := lit "4956";
                         Data := [Byte.x61; Byte.x0a; Byte.x62];
                         PartitionKey := lit "pk" |}])
                  sample_args (lit "abc123") 200%Z
                  {| Records := [{| SequenceNumber := lit "4956";
                                    Data := [Byte.x61; Byte.x0a; Byte.x62];
                                    PartitionKey := lit "pk" |}];
                     NextShardIterator := Some (lit "def456");
                     MillisBehindLatest := 0 |}
                  (lit "shardId-0001")
                  ltac:(vm_compute; right; right; left; reflexivity)
                  eq_refl
                  ltac:(repeat constructor)
                  eq_refl
                  ltac:(repeat constructor))).
Defined.

(* ===================================================================== *)
(** * Further properties of the command line *)
(* ===================================================================== *)

Lemma more_short_options_exits (explicit_arg : pystr) :
  exists code, Argparse.more_short_options explicit_arg = Argparse.Exited code.
Proof.
  induction explicit_arg as [| c rest IH]; cbn [Argparse.more_short_options].
  - now exists 0%Z.
  - destruct (Argparse.lookup [dash; c]) as [[| d] |];
      [exact IH | now exists 2%Z | now exists 2%Z].
Qed.

(** Once an argument is left over, the parser cannot succeed. *)
Lemma consume_leftover (marks : list Argparse.mark) :
  forall ns e extras,
    exists code,
      Argparse.consume marks ns (e :: extras) = Argparse.Exited code.
Proof.
  assert (H : forall n marks, List.length marks <= n ->
              forall ns e extras,
                exists code,
                  Argparse.consume marks ns (e :: extras) =
                  Argparse.Exited code).
  { clear marks. induction n as [| n IH]; intros marks Hlen ns e extras.
    - destruct marks; [now exists 2%Z | simpl in Hlen; lia].
    - destruct marks as [| m marks]; [now exists 2%Z |].
      cbn [List.length] in Hlen.
      destruct m as [arg [[| d] |] os [x |] | arg |];
        cbn [Argparse.consume];
        try (apply (IH marks); lia).
      + destruct os as [| c0 [| c1 os]], x as [| x0 x];
          try (now exists 2%Z).
        destruct (negb (c1 =? dash)%N);
          [apply more_short_options_exits | now exists 2%Z].
      + now exists 0%Z.
      + destruct marks as [| [| arg' |] marks]; try (now exists 2%Z).
        apply (IH marks). simpl in Hlen. lia. }
  intros. now apply (H (List.length marks)).
Qed.

(** A mark that stops the parser makes it exit. *)
Lemma consume_stops (marks : list Argparse.mark) :
  forall ns extras,
    existsb stops marks = true ->
    exists code, Argparse.consume marks ns extras = Argparse.Exited code.
Proof.
  assert (H : forall n marks, List.length marks <= n ->
              forall ns extras,
                existsb stops marks = true ->
                exists code,
                  Argparse.consume marks ns extras = Argparse.Exited code).
  { clear marks. induction n as [| n IH]; intros marks Hlen ns extras Hstop.
    - destruct marks; [discriminate | simpl in Hlen; lia].
    - destruct marks as [| m marks]; [discriminate |].
      cbn [List.length] in Hlen. cbn [existsb] in Hstop.
      destruct m as [arg [[| d] |] os [x |] | arg |];
        cbn [Argparse.consume stops orb] in *.
      + destruct os as [| c0 [| c1 os]], x as [| x0 x];
          try (now exists 2%Z).
        destruct (negb (c1 =? dash)%N);
          [apply more_short_options_exits | now exists 2%Z].
      + now exists 0%Z.
      + apply (IH marks); [lia | assumption].
      + destruct marks as [| [| arg' |] marks]; try (now exists 2%Z).
        apply (IH marks); [simpl in Hlen; lia | exact Hstop].
      + destruct extras; apply consume_leftover.
      + destruct extras; apply consume_leftover.
      + destruct extras; apply consume_leftover.
      + destruct extras; apply consume_leftover. }
  intros. now apply (H (List.length marks)).
Qed.

Lemma classify_stops (argv : list pystr) (arg : pystr) :
  In arg argv -> stops_the_parser arg = true ->
  forall marks,
    Argparse.classify argv = Some marks -> existsb stops marks = true.
Proof.
  intros Hin Hstop. induction argv as [| a argv IH]; [destruct Hin |].
  intros marks. cbn [Argparse.classify].
  destruct (PyStr.eqb a (lit "--")) eqn:Hdd; [now intros [= <-] |].
  destruct (Argparse.parse_optional a) as [| act os e |] eqn:Hopt;
    [| | discriminate];
    (destruct (Argparse.classify argv) as [marks' |]; [| discriminate]);
    intros [= <-]; cbn [existsb].
  - destruct Hin as [-> | Hin]; [| now apply IH].
    unfold stops_the_parser in Hstop. rewrite Hdd, Hopt in Hstop.
    discriminate.
  - destruct Hin as [-> | Hin].
    + unfold stops_the_parser in Hstop. rewrite Hdd, Hopt in Hstop.
      destruct act as [[| d] |]; [reflexivity | discriminate | reflexivity].
    + rewrite (IH Hin marks' eq_refl). apply orb_true_r.
Qed.

(** X6.  A command line that holds, anywhere, an argument that is neither
    one of the three flags nor the value of one ([--], [-h] or [--help],
    an option the parser does not know such as [--limit], an ambiguous
    abbreviation) ends the script in the parser: [SystemExit] is raised,
    [main] is not reached, no call into the SDK is made and nothing of
    the table is printed. *)
Theorem refused_argument_stops_the_script
    (stdout : TextIO) (boto3 : Boto3) (argv : list pystr) (arg : pystr) :
  In arg argv -> stops_the_parser arg = true ->
  exists code,
    Argparse.parse_args argv = Argparse.Exited code /\
    outcome (script stdout boto3 argv) = inl (SystemExit code) /\
    calls (trace (script stdout boto3 argv)) = [] /\
    printed (trace (script stdout boto3 argv)) = [].
Proof.
  intros Hin Hstop.
  assert (Hexit : exists code, Argparse.parse_args argv = Argparse.Exited code).
  { unfold Argparse.parse_args.
    destruct (Argparse.classify argv) as [marks |] eqn:Hmarks;
      [| now exists 2%Z].
    apply consume_stops. now apply (classify_stops argv arg). }
  destruct Hexit as [code Hcode]. exists code.
  unfold outcome, trace. rewrite script_shape, Hcode.
  destruct (code =? 0)%Z; repeat split; reflexivity.
Qed.

(** X6 at a command line with a flag the script does not have. *)
Lemma refused_argument_witness :
  exists code,
    Argparse.parse_args [lit "--stream-name"; lit "orders";
                         lit "--limit"; lit "10"] = Argparse.Exited code /\
    outcome (script utf8_stdout (sample_boto3 [])
                    [lit "--stream-name"; lit "orders";
                     lit "--limit"; lit "10"]) = inl (SystemExit code) /\
    calls (trace (script utf8_stdout (sample_boto3 [])
                         [lit "--stream-name"; lit "orders";
                          lit "--limit"; lit "10"])) = [] /\
    printed (trace (script utf8_stdout (sample_boto3 [])
                           [lit "--stream-name"; lit "orders";
                            lit "--limit"; lit "10"])) = [].
Proof.
  apply (@refused_argument_stops_the_script utf8_stdout
           (sample_boto3 [])
           [lit "--stream-name"; lit "orders"; lit "--limit"; lit "10"]
           (lit "--limit")).
  - right. right. left. reflexivity.
  - reflexivity.
Defined.

(** ** Flags are read from left to right *)

(** What the parser has accepted stays accepted when more follows. *)
Lemma consume_parsed_app (marks : list Argparse.mark) :
  forall ns0 extras ns more,
    Argparse.consume marks ns0 extras = Argparse.Parsed ns ->
    Argparse.consume (marks ++ more) ns0 extras = Argparse.consume more ns [].
Proof.
  assert (H : forall n marks, List.length marks <= n ->
              forall ns0 extras ns more,
                Argparse.consume marks ns0 extras = Argparse.Parsed ns ->
                Argparse.consume (marks ++ more) ns0 extras =
                Argparse.consume more ns []).
  { clear marks.
    assert (Hleft : forall marks ns0 extras arg ns,
               Argparse.consume marks ns0 (extras ++ [arg]) <>
               Argparse.Parsed ns).
    { intros marks ns0 extras arg ns Heq.
      destruct extras as [| e extras]; cbn [app] in Heq;
        [destruct (consume_leftover marks ns0 arg []) as [code Hcode]
        | destruct (consume_leftover marks ns0 e (extras ++ [arg]))
            as [code Hcode]];
        rewrite Hcode in Heq; discriminate. }
    induction n as [| n IH]; intros marks Hlen ns0 extras ns more Hparsed.
    - destruct marks; [| simpl in Hlen; lia].
      cbn [Argparse.consume] in Hparsed.
      destruct extras; [| discriminate]. now injection Hparsed as <-.
    - destruct marks as [| m marks].
      { cbn [Argparse.consume] in Hparsed.
        destruct extras; [| discriminate]. now injection Hparsed as <-. }
      cbn [List.length] in Hlen.
      destruct m as [arg [[| d] |] os [x |] | arg |];
        cbn [Argparse.consume app] in *;
        try (exfalso; eapply Hleft; eassumption).
      + destruct os as [| c0 [| c1 os]], x as [| x0 x]; try discriminate.
        destruct (negb (c1 =? dash)%N); [| discriminate].
        destruct (more_short_options_exits (x0 :: x)) as [code Hcode].
        rewrite Hcode in Hparsed. discriminate.
      + discriminate.
      + apply (IH marks); [lia | assumption].
      + destruct marks as [| [| arg' |] marks]; try discriminate.
        cbn [app]. apply (IH marks); [simpl in Hlen; lia | assumption]. }
  intros. now apply (H (List.length marks)).
Qed.

Lemma classify_app (argv rest : list pystr) (marks : list Argparse.mark) :
  Argparse.classify argv = Some marks ->
  existsb stops marks = false ->
  Argparse.classify (argv ++ rest) =
  option_map (app marks) (Argparse.classify rest).
Proof.
  revert marks. induction argv as [| a argv IH]; intros marks.
  - intros [= <-] _. cbn [app]. now destruct (Argparse.classify rest).
  - cbn [Argparse.classify app].
    destruct (PyStr.eqb a (lit "--")); [intros [= <-]; discriminate |].
    destruct (Argparse.parse_optional a) as [| act os e |];
      [| | discriminate];
      (destruct (Argparse.classify argv) as [marks' |]; [| discriminate]);
      intros [= <-]; cbn [existsb]; intros Hstop;
      apply orb_false_elim in Hstop; destruct Hstop as [_ Hstop];
      rewrite (IH marks' eq_refl Hstop);
      now destruct (Argparse.classify rest).
Qed.

(** A command line the parser accepts holds nothing that stops it. *)
Lemma parsed_marks (argv : list pystr) (ns : Argparse.Namespace) :
  Argparse.parse_args argv = Argparse.Parsed ns ->
  exists marks,
    Argparse.classify argv = Some marks /\
    existsb stops marks = false /\
    Argparse.consume marks Argparse.empty_namespace [] = Argparse.Parsed ns.
Proof.
  unfold Argparse.parse_args.
  destruct (Argparse.classify argv) as [marks |]; [| discriminate].
  intros Hparsed. exists marks. split; [reflexivity |].
  split; [| assumption].
  destruct (existsb stops marks) eqn:Hstop; [| reflexivity].
  destruct (consume_stops marks Argparse.empty_namespace [] Hstop)
    as [code Hcode].
  rewrite Hcode in Hparsed. discriminate.
Qed.

(** X7.  The flags are read from left to right and a later one
    overwrites an earlier one.  If the parser accepts a command line, it
    accepts it with one more flag at the end, in either spelling, and the
    namespace differs by that flag alone: [--flag value] for a value
    that does not start with a dash, [--flag=value] for any value (the
    value [--] being stored as the empty list). *)
Theorem appended_flag_is_accepted_and_wins
    (argv : list pystr) (ns : Argparse.Namespace)
    (name : string) (d : Argparse.dest) (value : pystr) :
  Argparse.parse_args argv = Argparse.Parsed ns ->
  In (name, d) flags ->
  (plain (Some value) = true ->
   Argparse.parse_args (argv ++ [lit name; value]) =
   Argparse.Parsed (Argparse.setattr ns d (PyStr value))) /\
  Argparse.parse_args (argv ++ [lit name ++ equals :: value]) =
  Argparse.Parsed (Argparse.setattr ns d (Argparse.get_values value)).
Proof.
  intros Hparsed Hname.
  destruct (@parsed_marks argv ns Hparsed) as [marks [Hmarks [Hstop Hconsume]]].
  split.
  - intros Hplain. unfold Argparse.parse_args.
    rewrite (@classify_app argv _ marks Hmarks Hstop).
    change [lit name; value] with (flag name (Some value) ++ []).
    rewrite (@classify_flag name d (Some value) [] Hname Hplain).
    cbn [Argparse.classify option_map].
    rewrite app_nil_r, (@consume_parsed_app marks _ _ ns _ Hconsume).
    rewrite <- (app_nil_r (flag_marks name d (Some value))).
    rewrite (@consume_flag name d (Some value) [] ns [] Hplain).
    reflexivity.
  - unfold Argparse.parse_args.
    rewrite (@classify_app argv _ marks Hmarks Hstop).
    assert (Hopt : PyStr.eqb (lit name ++ equals :: value) (lit "--") = false
                   /\ Argparse.parse_optional (lit name ++ equals :: value) =
                      Argparse.OptionTuple (Some (Argparse.Store d))
                                           (lit name) (Some value)).
    { destruct Hname as [[= <- <-] | [[= <- <-] | [[= <- <-] | []]]];
        split; reflexivity. }
    destruct Hopt as [Hdd Hopt].
    change (@cons (list codepoint)) with (@cons pystr).
    change (@nil (list codepoint)) with (@nil pystr).
    rewrite (@classify_option _ _ _ _ [] Hdd Hopt).
    cbn [Argparse.classify option_map].
    rewrite (@consume_parsed_app marks _ _ ns _ Hconsume).
    reflexivity.
Qed.

(** X7 at a command line that gives the region twice. *)
Lemma appended_flag_witness :
  Argparse.parse_args ([lit "--region"; lit "eu-west-1"] ++
                       [lit "--region"; lit "us-east-1"]) =
  Argparse.Parsed {| Argparse.stream_name := PyNone;
                     Argparse.shard_id := PyNone;
                     Argparse.region := PyStr (lit "us-east-1") |}.
Proof.
  apply (proj1 (@appended_flag_is_accepted_and_wins
                  [lit "--region"; lit "eu-west-1"]
                  {| Argparse.stream_name := PyNone;
                     Argparse.shard_id := PyNone;
                     Argparse.region := PyStr (lit "eu-west-1") |}
                  "--region" Argparse.Region (lit "us-east-1")
                  eq_refl
                  ltac:(right; right; left; reflexivity))
               eq_refl).
Defined.

(* ===================================================================== *)
(** * Further properties of the decoder *)
(* ===================================================================== *)

(** ** Bit operations as arithmetic *)

(** Linear arithmetic with division and remainder by constants. *)
Ltac nlia := zify; Z.to_euclidean_division_equations; lia.

Lemma land_shifted (a k y : N) :
  (y < 2 ^ k)%N -> N.land (N.shiftl a k) y = 0%N.
Proof.
  intros Hy. apply N.bits_inj_0. intros m. rewrite N.land_spec.
  destruct (N.lt_ge_cases m k) as [Hlt | Hge].
  - now rewrite N.shiftl_spec_low.
  - assert (Hbit : N.testbit y m = false); [| now rewrite Hbit, andb_false_r].
    destruct (N.eq_0_gt_0_cases y) as [-> | Hpos]; [apply N.bits_0 |].
    apply N.bits_above_log2. apply N.log2_lt_pow2; [assumption |].
    eapply N.lt_le_trans; [eassumption |].
    apply N.pow_le_mono_r; [discriminate | assumption].
Qed.

(** Or-ing low bits into a shifted value adds them. *)
Lemma lor_shifted (a k y : N) :
  (y < 2 ^ k)%N -> N.lor (N.shiftl a k) y = (a * 2 ^ k + y)%N.
Proof.
  intros Hy. rewrite <- N.lxor_lor by now apply land_shifted.
  rewrite <- N.add_nocarry_lxor by now apply land_shifted.
  now rewrite N.shiftl_mul_pow2.
Qed.

Lemma low6_mod (n : N) : Utf8.low6 n = (n mod 64)%N.
Proof. unfold Utf8.low6. change 0x3F%N with (N.ones 6). apply N.land_ones. Qed.

Lemma join2_arith (n0 n1 : N) :
  Utf8.join2 n0 n1 = ((n0 mod 32) * 64 + n1 mod 64)%N.
Proof.
  unfold Utf8.join2. rewrite low6_mod.
  change 0x1F%N with (N.ones 5). rewrite N.land_ones.
  rewrite lor_shifted by (change (2 ^ 6)%N with 64%N; nlia).
  reflexivity.
Qed.

Lemma join3_arith (n0 n1 n2 : N) :
  Utf8.join3 n0 n1 n2 =
  ((n0 mod 16) * 4096 + (n1 mod 64) * 64 + n2 mod 64)%N.
Proof.
  unfold Utf8.join3. rewrite !low6_mod.
  change 0x0F%N with (N.ones 4). rewrite N.land_ones.
  rewrite (lor_shifted (n1 mod 64) 6)
    by (change (2 ^ 6)%N with 64%N; nlia).
  rewrite lor_shifted
    by (change (2 ^ 6)%N with 64%N; change (2 ^ 12)%N with 4096%N; nlia).
  change (2 ^ 4)%N with 16%N. change (2 ^ 6)%N with 64%N.
  change (2 ^ 12)%N with 4096%N. nlia.
Qed.

Lemma join4_arith (n0 n1 n2 n3 : N) :
  Utf8.join4 n0 n1 n2 n3 =
  ((n0 mod 8) * 262144 + (n1 mod 64) * 4096 + (n2 mod 64) * 64 +
   n3 mod 64)%N.
Proof.
  unfold Utf8.join4. rewrite !low6_mod.
  change 0x07%N with (N.ones 3). rewrite N.land_ones.
  rewrite (lor_shifted (n2 mod 64) 6)
    by (change (2 ^ 6)%N with 64%N; nlia).
  rewrite (lor_shifted (n1 mod 64) 12)
    by (change (2 ^ 6)%N with 64%N; change (2 ^ 12)%N with 4096%N; nlia).
  rewrite lor_shifted
    by (change (2 ^ 6)%N with 64%N; change (2 ^ 12)%N with 4096%N;
        change (2 ^ 18)%N with 262144%N; nlia).
  change (2 ^ 3)%N with 8%N. change (2 ^ 6)%N with 64%N.
  change (2 ^ 12)%N with 4096%N. change (2 ^ 18)%N with 262144%N. nlia.
Qed.

(** The bytes the encoder builds. *)
Lemma continuation_byte (x : N) :
  N.lor 0x80 (N.land x 0x3F) = (128 + x mod 64)%N.
Proof.
  change 0x3F%N with (N.ones 6). rewrite N.land_ones.
  change 0x80%N with (N.shiftl 2 6).
  rewrite lor_shifted by (change (2 ^ 6)%N with 64%N; nlia).
  reflexivity.
Qed.

Lemma lead_byte_2 (c : N) :
  (c < 0x800)%N -> N.lor 0xC0 (N.shiftr c 6) = (192 + c / 64)%N.
Proof.
  intros Hc. rewrite N.shiftr_div_pow2. change (2 ^ 6)%N with 64%N.
  change 0xC0%N with (N.shiftl 3 6).
  rewrite lor_shifted by (change (2 ^ 6)%N with 64%N; nlia).
  reflexivity.
Qed.

Lemma lead_byte_3 (c : N) :
  (c < 0x10000)%N -> N.lor 0xE0 (N.shiftr c 12) = (224 + c / 4096)%N.
Proof.
  intros Hc. rewrite N.shiftr_div_pow2. change (2 ^ 12)%N with 4096%N.
  change 0xE0%N with (N.shiftl 14 4).
  rewrite lor_shifted by (change (2 ^ 4)%N with 16%N; nlia).
  reflexivity.
Qed.

Lemma lead_byte_4 (c : N) :
  (c < 0x200000)%N -> N.lor 0xF0 (N.shiftr c 18) = (240 + c / 262144)%N.
Proof.
  intros Hc. rewrite N.shiftr_div_pow2. change (2 ^ 18)%N with 262144%N.
  change 0xF0%N with (N.shiftl 30 3).
  rewrite lor_shifted by (change (2 ^ 3)%N with 8%N; nlia).
  reflexivity.
Qed.

Lemma to_N_byte_of (n : N) : (n < 256)%N -> Byte.to_N (byte_of n) = n.
Proof.
  intros Hn. unfold byte_of. destruct (Byte.of_N n) as [b |] eqn:Hb.
  - now apply Byte.to_of_N.
  - apply Byte.of_N_None_iff in Hb. lia.
Qed.

Lemma byte_of_to_N (b : Byte.byte) : byte_of (Byte.to_N b) = b.
Proof. unfold byte_of. now rewrite Byte.of_to_N. Qed.

(** ** One code point at a time *)

(** Decides the comparisons of a goal, discarding the impossible cases. *)
Ltac decide_tests :=
  repeat match goal with
         | |- context [(?a <? ?b)%N] =>
             destruct (N.ltb_spec a b); try lia
         | |- context [(?a <=? ?b)%N] =>
             destruct (N.leb_spec a b); try lia
         | |- context [(?a =? ?b)%N] =>
             destruct (N.eqb_spec a b); try lia
         end.

(** One step of the decoder. *)
Lemma decode_cons (b0 : Byte.byte) (r0 : Utf8.bytes) :
  Utf8.decode (b0 :: r0) =
  let n0 := Byte.to_N b0 in
  if (n0 <? 0x80)%N then
    option_map (cons n0) (Utf8.decode r0)
  else if Utf8.between 0xC2 0xDF n0 then
    match r0 with
    | b1 :: r1 =>
        let n1 := Byte.to_N b1 in
        if Utf8.continuation n1
        then option_map (cons (Utf8.join2 n0 n1)) (Utf8.decode r1)
        else None
    | _ => None
    end
  else if Utf8.between 0xE0 0xEF n0 then
    match r0 with
    | b1 :: b2 :: r2 =>
        let n1 := Byte.to_N b1 in
        let n2 := Byte.to_N b2 in
        if Utf8.second_ok n0 n1 && Utf8.continuation n2
        then option_map (cons (Utf8.join3 n0 n1 n2)) (Utf8.decode r2)
        else None
    | _ => None
    end
  else if Utf8.between 0xF0 0xF4 n0 then
    match r0 with
    | b1 :: b2 :: b3 :: r3 =>
        let n1 := Byte.to_N b1 in
        let n2 := Byte.to_N b2 in
        let n3 := Byte.to_N b3 in
        if Utf8.second_ok n0 n1 && Utf8.continuation n2 &&
           Utf8.continuation n3
        then option_map (cons (Utf8.join4 n0 n1 n2 n3)) (Utf8.decode r3)
        else None
    | _ => None
    end
  else None.
Proof. reflexivity. Qed.

(** The decoder reads a well-formed sequence and goes on behind it. *)
Lemma decode_sequence (pre : Utf8.bytes) (c : codepoint) (rest : Utf8.bytes) :
  sequence pre c ->
  Utf8.decode (pre ++ rest) = option_map (cons c) (Utf8.decode rest).
Proof.
  intros Hseq. destruct Hseq; cbn [app]; rewrite decode_cons;
    cbv beta iota zeta;
    unfold Utf8.second_ok, Utf8.continuation, Utf8.between;
    decide_tests; reflexivity.
Qed.

(** What the decoder accepts starts with a well-formed sequence. *)
Lemma decode_first (b0 : Byte.byte) (r0 : Utf8.bytes) (s : pystr) :
  Utf8.decode (b0 :: r0) = Some s ->
  exists pre c rest s',
    sequence pre c /\ b0 :: r0 = pre ++ rest /\
    Utf8.decode rest = Some s' /\ s = c :: s'.
Proof.
  assert (Hend : forall pre c rest,
             sequence pre c -> b0 :: r0 = pre ++ rest ->
             option_map (cons c) (Utf8.decode rest) = Some s ->
             exists pre c rest s',
               sequence pre c /\ b0 :: r0 = pre ++ rest /\
               Utf8.decode rest = Some s' /\ s = c :: s').
  { intros pre c rest Hseq Heq Hd.
    destruct (Utf8.decode rest) as [s' |] eqn:Hrest; [| discriminate].
    injection Hd as <-. now exists pre, c, rest, s'. }
  rewrite decode_cons. cbv beta iota zeta.
  unfold Utf8.between. decide_tests; cbn [andb]; try discriminate.
  - apply (Hend [b0]); [constructor; lia | reflexivity].
  - destruct r0 as [| b1 r1]; [discriminate |].
    unfold Utf8.continuation, Utf8.between.
    decide_tests; cbn [andb]; try discriminate.
    apply (Hend [b0; b1]); [constructor; lia | reflexivity].
  - destruct r0 as [| b1 [| b2 r2]]; try discriminate.
    unfold Utf8.second_ok, Utf8.continuation, Utf8.between.
    decide_tests; cbn [andb]; try discriminate;
      (apply (Hend [b0; b1; b2]); [constructor; lia | reflexivity]).
  - destruct r0 as [| b1 [| b2 [| b3 r3]]]; try discriminate.
    unfold Utf8.second_ok, Utf8.continuation, Utf8.between.
    decide_tests; cbn [andb]; try discriminate;
      (apply (Hend [b0; b1; b2; b3]); [constructor; lia | reflexivity]).
Qed.

(** A well-formed sequence stands for a scalar value, and it is the
    encoding of that value. *)
Lemma sequence_encode (pre : Utf8.bytes) (c : codepoint) :
  sequence pre c -> scalar c = true /\ encode_char c = pre.
Proof.
  intros Hseq. destruct Hseq as
      [b0 H0 | b0 b1 H0 H1 | b0 b1 b2 H0 H1 Hlow Hhigh H2
       | b0 b1 b2 b3 H0 H1 Hlow Hhigh H2 H3].
  - unfold scalar, encode_char. decide_tests.
    now rewrite byte_of_to_N.
  - rewrite join2_arith.
    set (c := ((Byte.to_N b0 mod 32) * 64 + Byte.to_N b1 mod 64)%N).
    assert (Hc : (0x80 <= c < 0x800)%N /\
                 (192 + c / 64 = Byte.to_N b0)%N /\
                 (128 + c mod 64 = Byte.to_N b1)%N)
      by (unfold c; repeat split; nlia).
    destruct Hc as [Hrange [Hb0 Hb1]].
    unfold scalar, encode_char. decide_tests.
    rewrite lead_byte_2, continuation_byte by lia.
    rewrite Hb0, Hb1, !byte_of_to_N. split; reflexivity.
  - rewrite join3_arith.
    set (c := ((Byte.to_N b0 mod 16) * 4096 + (Byte.to_N b1 mod 64) * 64 +
               Byte.to_N b2 mod 64)%N).
    assert (Hc : (0x800 <= c < 0x10000)%N /\
                 (c < 0xD800 \/ 0xDFFF < c)%N /\
                 (224 + c / 4096 = Byte.to_N b0)%N /\
                 (128 + (c / 64) mod 64 = Byte.to_N b1)%N /\
                 (128 + c mod 64 = Byte.to_N b2)%N)
      by (unfold c; repeat split; nlia).
    destruct Hc as [Hrange [Hsurrogate [Hb0 [Hb1 Hb2]]]].
    unfold scalar, encode_char. decide_tests;
      rewrite lead_byte_3, !continuation_byte, N.shiftr_div_pow2 by lia;
      change (2 ^ 6)%N with 64%N;
      rewrite Hb0, Hb1, Hb2, !byte_of_to_N; split; reflexivity.
  - rewrite join4_arith.
    set (c := ((Byte.to_N b0 mod 8) * 262144 + (Byte.to_N b1 mod 64) * 4096 +
               (Byte.to_N b2 mod 64) * 64 + Byte.to_N b3 mod 64)%N).
    assert (Hc : (0x10000 <= c < 0x110000)%N /\
                 (240 + c / 262144 = Byte.to_N b0)%N /\
                 (128 + (c / 4096) mod 64 = Byte.to_N b1)%N /\
                 (128 + (c / 64) mod 64 = Byte.to_N b2)%N /\
                 (128 + c mod 64 = Byte.to_N b3)%N)
      by (unfold c; repeat split; nlia).
    destruct Hc as [Hrange [Hb0 [Hb1 [Hb2 Hb3]]]].
    unfold scalar, encode_char. decide_tests.
    rewrite lead_byte_4, !continuation_byte, !N.shiftr_div_pow2 by lia.
    change (2 ^ 6)%N with 64%N. change (2 ^ 12)%N with 4096%N.
    rewrite Hb0, Hb1, Hb2, Hb3, !byte_of_to_N. split; reflexivity.
Qed.

(** The encoding of a scalar value is a well-formed sequence for it. *)
Lemma encode_sequence (c : codepoint) :
  scalar c = true -> sequence (encode_char c) c.
Proof.
  unfold scalar, encode_char. intros Hscalar.
  assert (Hc : (c < 0xD800 \/ 0xDFFF < c /\ c < 0x110000)%N).
  { apply orb_prop in Hscalar. destruct Hscalar as [Hs | Hs].
    - left. now apply N.ltb_lt.
    - apply andb_prop in Hs. destruct Hs as [Hs1 Hs2]. right.
      split; now apply N.ltb_lt. }
  clear Hscalar. decide_tests.
  - set (b0 := byte_of c).
    assert (Hb0 : Byte.to_N b0 = c) by (apply to_N_byte_of; lia).
    rewrite <- Hb0. constructor. lia.
  - rewrite lead_byte_2, continuation_byte by lia.
    set (b0 := byte_of (192 + c / 64)).
    set (b1 := byte_of (128 + c mod 64)).
    assert (Hb0 : Byte.to_N b0 = (192 + c / 64)%N)
      by (apply to_N_byte_of; nlia).
    assert (Hb1 : Byte.to_N b1 = (128 + c mod 64)%N)
      by (apply to_N_byte_of; nlia).
    assert (Hj : Utf8.join2 (Byte.to_N b0) (Byte.to_N b1) = c)
      by (rewrite join2_arith, Hb0, Hb1; nlia).
    rewrite <- Hj. constructor; rewrite ?Hb0, ?Hb1; nlia.
  - rewrite lead_byte_3, !continuation_byte, N.shiftr_div_pow2 by lia.
    change (2 ^ 6)%N with 64%N.
    set (b0 := byte_of (224 + c / 4096)).
    set (b1 := byte_of (128 + (c / 64) mod 64)).
    set (b2 := byte_of (128 + c mod 64)).
    assert (Hb0 : Byte.to_N b0 = (224 + c / 4096)%N)
      by (apply to_N_byte_of; nlia).
    assert (Hb1 : Byte.to_N b1 = (128 + (c / 64) mod 64)%N)
      by (apply to_N_byte_of; nlia).
    assert (Hb2 : Byte.to_N b2 = (128 + c mod 64)%N)
      by (apply to_N_byte_of; nlia).
    assert (Hj : Utf8.join3 (Byte.to_N b0) (Byte.to_N b1) (Byte.to_N b2) = c)
      by (rewrite join3_arith, Hb0, Hb1, Hb2; nlia).
    rewrite <- Hj. constructor; rewrite ?Hb0, ?Hb1, ?Hb2; nlia.
  - rewrite lead_byte_4, !continuation_byte, !N.shiftr_div_pow2 by lia.
    change (2 ^ 6)%N with 64%N. change (2 ^ 12)%N with 4096%N.
    set (b0 := byte_of (240 + c / 262144)).
    set (b1 := byte_of (128 + (c / 4096) mod 64)).
    set (b2 := byte_of (128 + (c / 64) mod 64)).
    set (b3 := byte_of (128 + c mod 64)).
    assert (Hb0 : Byte.to_N b0 = (240 + c / 262144)%N)
      by (apply to_N_byte_of; nlia).
    assert (Hb1 : Byte.to_N b1 = (128 + (c / 4096) mod 64)%N)
      by (apply to_N_byte_of; nlia).
    assert (Hb2 : Byte.to_N b2 = (128 + (c / 64) mod 64)%N)
      by (apply to_N_byte_of; nlia).
    assert (Hb3 : Byte.to_N b3 = (128 + c mod 64)%N)
      by (apply to_N_byte_of; nlia).
    assert (Hj : Utf8.join4 (Byte.to_N b0) (Byte.to_N b1) (Byte.to_N b2)
                            (Byte.to_N b3) = c)
      by (rewrite join4_arith, Hb0, Hb1, Hb2, Hb3; nlia).
    rewrite <- Hj. constructor; rewrite ?Hb0, ?Hb1, ?Hb2, ?Hb3; nlia.
Qed.

Lemma sequence_length (pre : Utf8.bytes) (c : codepoint) :
  sequence pre c -> 1 <= List.length pre <= 4.
Proof. intros Hseq. destruct Hseq; simpl; lia. Qed.

(** Induction over what the decoder accepts, one code point at a time. *)
Lemma decode_induction (P : Utf8.bytes -> pystr -> Prop) :
  P [] [] ->
  (forall pre c rest s,
      sequence pre c -> Utf8.decode rest = Some s -> P rest s ->
      P (pre ++ rest) (c :: s)) ->
  forall bs s, Utf8.decode bs = Some s -> P bs s.
Proof.
  intros Hnil Hstep.
  assert (H : forall n bs, List.length bs <= n ->
              forall s, Utf8.decode bs = Some s -> P bs s).
  { induction n as [| n IH]; intros bs Hlen s Hdec.
    - destruct bs; [| simpl in Hlen; lia].
      injection Hdec as <-. exact Hnil.
    - destruct bs as [| b0 r0]; [injection Hdec as <-; exact Hnil |].
      destruct (decode_first _ _ Hdec)
        as [pre [c [rest [s' [Hseq [Heq [Hrest ->]]]]]]].
      rewrite Heq. apply Hstep; try assumption.
      apply IH; [| assumption].
      pose proof (sequence_length Hseq) as Hpre.
      apply (f_equal (@List.length _)) in Heq.
      rewrite length_app in Heq. simpl in Heq, Hlen. lia. }
  intros bs s. now apply (H (List.length bs)).
Qed.

(** ** The decoder and the encoder *)

Lemma decode_to_encode (bs : Utf8.bytes) (s : pystr) :
  Utf8.decode bs = Some s -> encode s = Some bs.
Proof.
  revert bs s. apply decode_induction; [reflexivity |].
  intros pre c rest s Hseq _. unfold encode. cbn [forallb flat_map].
  destruct (sequence_encode Hseq) as [-> ->].
  destruct (forallb scalar s); [| discriminate].
  now intros [= ->].
Qed.

Lemma encode_to_decode (s : pystr) (bs : Utf8.bytes) :
  encode s = Some bs -> Utf8.decode bs = Some s.
Proof.
  unfold encode. destruct (forallb scalar s) eqn:Hscalar; [| discriminate].
  intros [= <-]. induction s as [| c s IH]; [reflexivity |].
  cbn [forallb] in Hscalar. apply andb_prop in Hscalar.
  destruct Hscalar as [Hc Hs]. cbn [flat_map].
  rewrite (decode_sequence _ (encode_sequence c Hc)), (IH Hs).
  reflexivity.
Qed.

(** X8.  Decoding is the exact inverse of UTF-8 encoding: a payload
    decodes to a text if and only if it is the UTF-8 encoding of that
    text.  So every text a producer encodes is shown as it was, and a
    payload that is not the encoding of any text (an over-long form, an
    encoded surrogate, a code point above U+10FFFF, a cut-off sequence)
    is rejected. *)
Theorem decode_inverts_encode (bs : Utf8.bytes) (s : pystr) :
  Utf8.decode bs = Some s <-> encode s = Some bs.
Proof. split; [apply decode_to_encode | apply encode_to_decode]. Qed.

(** X9.  The decoder yields scalar values only, never a surrogate or a
    code point above U+10FFFF, and it is injective: two payloads that
    decode to the same text are the same bytes. *)
Theorem decode_is_injective_onto_scalars
    (bs bs' : Utf8.bytes) (s : pystr) :
  Utf8.decode bs = Some s ->
  forallb scalar s = true /\
  (Utf8.decode bs' = Some s -> bs' = bs).
Proof.
  intros Hdec. apply decode_to_encode in Hdec. split.
  - unfold encode in Hdec. now destruct (forallb scalar s).
  - intros Hdec'. apply decode_to_encode in Hdec'. congruence.
Qed.

(** X9 at the encoding of the euro sign. *)
Lemma decode_is_injective_witness :
  forallb scalar [0x20AC%N] = true /\
  (Utf8.decode [Byte.xe2; Byte.x82; Byte.xac] = Some [0x20AC%N] ->
   [Byte.xe2; Byte.x82; Byte.xac] = [Byte.xe2; Byte.x82; Byte.xac]).
Proof.
  apply (@decode_is_injective_onto_scalars
           [Byte.xe2; Byte.x82; Byte.xac] [Byte.xe2; Byte.x82; Byte.xac]
           [0x20AC%N] eq_refl).
Defined.

(** ** Sizes, concatenation, ASCII *)

(** X10.  A text decoded from n bytes has at most n characters and at
    least a quarter of n: every character takes one to four bytes. *)
Theorem decoded_length_bounds (bs : Utf8.bytes) (s : pystr) :
  Utf8.decode bs = Some s ->
  List.length s <= List.length bs <= 4 * List.length s.
Proof.
  revert bs s. apply decode_induction; [simpl; lia |].
  intros pre c rest s Hseq _ IH.
  pose proof (sequence_length Hseq). rewrite length_app. simpl. lia.
Qed.

(** X10 at a payload of one three-byte character and one ASCII
    character. *)
Lemma decoded_length_bounds_witness :
  List.length [0x20AC%N; 0x61%N] <= 4 <= 4 * List.length [0x20AC%N; 0x61%N].
Proof.
  apply (@decoded_length_bounds
           [Byte.xe2; Byte.x82; Byte.xac; Byte.x61] [0x20AC%N; 0x61%N]
           eq_refl).
Defined.

(** X11.  Decoding goes through concatenation: behind a payload that
    decodes, what follows is decoded on its own, so the concatenation
    decodes exactly when the second part does, to the two texts one
    after the other. *)
Theorem decode_app (bs bs' : Utf8.bytes) (s : pystr) :
  Utf8.decode bs = Some s ->
  Utf8.decode (bs ++ bs') = option_map (app s) (Utf8.decode bs').
Proof.
  revert bs s. apply decode_induction.
  - cbn [app]. now destruct (Utf8.decode bs').
  - intros pre c rest s Hseq _ IH.
    rewrite <- app_assoc, (decode_sequence _ Hseq), IH.
    now destruct (Utf8.decode bs').
Qed.

(** X11 at two payloads of one character each. *)
Lemma decode_app_witness :
  Utf8.decode ([Byte.xe2; Byte.x82; Byte.xac] ++ [Byte.x61]) =
  option_map (app [0x20AC%N]) (Utf8.decode [Byte.x61]).
Proof.
  apply (@decode_app [Byte.xe2; Byte.x82; Byte.xac] [Byte.x61] [0x20AC%N]
                     eq_refl).
Defined.

(** X12.  A payload of bytes below 0x80 always decodes, to the
    characters with the same numbers: ASCII payloads are shown byte for
    byte. *)
Theorem ascii_payload_decodes_bytewise (bs : Utf8.bytes) :
  Forall (fun b => (Byte.to_N b < 0x80)%N) bs ->
  Utf8.decode bs = Some (List.map Byte.to_N bs).
Proof.
  induction 1 as [| b0 bs Hb0 _ IH]; [reflexivity |].
  rewrite decode_cons. cbv beta iota zeta. decide_tests.
  rewrite IH. reflexivity.
Qed.

(** X12 at [b"hello"]. *)
Lemma ascii_payload_witness :
  Utf8.decode (Utf8.of_lit "hello") =
  Some (List.map Byte.to_N (Utf8.of_lit "hello")).
Proof.
  apply (@ascii_payload_decodes_bytewise (Utf8.of_lit "hello")).
  repeat constructor.
Defined.

(** ** From the producer to the table *)

Lemma encoded_batch (stdout : TextIO) (sid : pystr)
    (records : list KinesisRecord) (texts : list pystr) :
  List.map (fun r => Some (Data r)) records = List.map encode texts ->
  Forall (fun r => writable stdout (SequenceNumber r) = true) records ->
  Forall (fun text => writable stdout text = true) texts ->
  Forall (fun r => Utf8.valid (Data r) = true) records /\
  Forall (shows_writable stdout) records /\
  List.map (fun r => table_row sid (SequenceNumber r) (message_of r)) records =
  List.map (fun rt => table_row sid (SequenceNumber (fst rt)) (snd rt))
           (combine records texts).
Proof.
  revert texts. induction records as [| r records IH];
    intros [| t texts] Heq Hseq Htexts; try discriminate;
    [split; [constructor | split; [constructor | reflexivity]] |].
  cbn [List.map] in Heq. injection Heq as Hr Hrest.
  symmetry in Hr. apply encode_to_decode in Hr.
  inversion Hseq as [| ? ? Hs Hseq']; subst.
  inversion Htexts as [| ? ? Ht Htexts']; subst.
  destruct (IH _ Hrest Hseq' Htexts') as [Hvalid [Hshow Hrows]].
  assert (Hmsg : message_of r = t) by (unfold message_of; now rewrite Hr).
  split; [| split].
  - constructor; [| exact Hvalid]. unfold Utf8.valid. now rewrite Hr.
  - constructor; [| exact Hshow]. split; [exact Hs | now rewrite Hmsg].
  - cbn [List.map combine fst snd]. now rewrite Hrows, Hmsg.
Qed.

(** X13.  What a producer wrote is what the table shows: when the
    payloads of the batch are the UTF-8 encodings of some texts, and
    standard output can encode these texts, the shard id and the sequence
    numbers, the run ends normally and the data rows show, record by
    record, the shard id, the sequence number and that very text. *)
Theorem encoded_texts_are_shown
    (stdout : TextIO) (boto3 : Boto3) (args : Argparse.Namespace)
    (cursor : pystr) (limit : Z) (out : GetRecordsOutput)
    (sid : pystr) (texts : list pystr) :
  In (EvCall (ReqGetRecords cursor limit) (Returned (RetRecords out)))
     (trace (main stdout boto3 args)) ->
  Argparse.shard_id args = PyStr sid ->
  List.map (fun r => Some (Data r)) (Records out) = List.map encode texts ->
  writable stdout sid = true ->
  Forall (fun r => writable stdout (SequenceNumber r) = true) (Records out) ->
  Forall (fun text => writable stdout text = true) texts ->
  printed (trace (main stdout boto3 args)) =
  header_row :: separator_row ::
  List.map (fun rt => table_row sid (SequenceNumber (fst rt)) (snd rt))
           (combine (Records out) texts) /\
  outcome (main stdout boto3 args) = inr tt.
Proof.
  intros Hin Hsid Henc Hwsid Hseq Htexts.
  destruct (@encoded_batch stdout sid _ _ Henc Hseq Htexts)
    as [Hvalid [Hshow Hrows]].
  destruct (fetched_shape _ _ _ _ _ _ Hin) as [it [_ [_ Hshape]]].
  unfold trace, outcome.
  rewrite Hshape, Hsid, (@rows_printed_valid stdout sid _ Hvalid Hwsid Hshow).
  cbn [fst snd]. rewrite printed_fetched, Hrows. now split.
Qed.

(** X13 at a batch of two records, the second of which holds a euro
    sign. *)
Lemma encoded_texts_witness :
  printed (trace (main utf8_stdout (sample_boto3
                          [sample_record "4956" "hello";
                           euro_record "4957"])
                       sample_args)) =
  header_row :: separator_row ::
  List.map (fun rt => table_row (lit "shardId-0001")
                                (SequenceNumber (fst rt)) (snd rt))
           (combine [sample_record "4956" "hello";
                     euro_record "4957"]
                    [lit "hello"; [0x20AC%N]]) /\
  outcome (main utf8_stdout (sample_boto3
                   [sample_record "4956" "hello";
                    euro_record "4957"])
                sample_args) = inr tt.
Proof.
  apply (@encoded_texts_are_shown utf8_stdout
           (sample_boto3
              [sample_record "4956" "hello";
               euro_record "4957"])
           sample_args (lit "abc123") 200%Z
           {| Records := [sample_record "4956" "hello";
                          euro_record "4957"];
              NextShardIterator := Some (lit "def456");
              MillisBehindLatest := 0 |}
           (lit "shardId-0001") [lit "hello"; [0x20AC%N]]).
  - vm_compute. right. right. left. reflexivity.
  - reflexivity.
  - reflexivity.
  - reflexivity.
  - repeat constructor.
  - repeat constructor.
Defined.

(** ** Abbreviated flags *)

Lemma startswith_firstn (s p : pystr) :
  PyStr.startswith s p = true -> p = firstn (List.length p) s.
Proof.
  revert s. induction p as [| d p IH]; intros [| c s] H; try reflexivity;
    try discriminate.
  cbn [PyStr.startswith] in H. apply andb_prop in H. destruct H as [Hc Hp].
  apply N.eqb_eq in Hc. subst d. cbn [List.length firstn]. f_equal.
  now apply IH.
Qed.

Lemma startswith_length (s p : pystr) :
  PyStr.startswith s p = true -> List.length p <= List.length s.
Proof.
  revert s. induction p as [| d p IH]; intros [| c s] H; simpl; try lia;
    try discriminate.
  cbn [PyStr.startswith] in H. apply andb_prop in H. destruct H as [_ Hp].
  apply IH in Hp. lia.
Qed.

Lemma consume_store (arg option_string value : pystr) (d : Argparse.dest)
    (marks : list Argparse.mark) (ns : Argparse.Namespace)
    (extras : list pystr) :
  plain (Some value) = true ->
  Argparse.consume
    (Argparse.MarkO arg (Some (Argparse.Store d)) option_string None ::
     Argparse.MarkA value :: marks) ns extras =
  Argparse.consume marks (Argparse.setattr ns d (PyStr value)) extras.
Proof.
  intros Hplain. cbn [Argparse.consume]. now rewrite get_values_plain.
Qed.

(** A prefix of a flag that is longer than [--] and is not [--s] stands
    for that flag alone. *)
Lemma abbreviation_parses (name : string) (d : Argparse.dest) (abbr : pystr) :
  In (name, d) flags ->
  PyStr.startswith (lit name) abbr = true ->
  2 < List.length abbr ->
  abbr <> lit "--s" ->
  PyStr.eqb abbr (lit "--") = false /\
  Argparse.parse_optional abbr =
  Argparse.OptionTuple (Some (Argparse.Store d)) (lit name) None.
Proof.
  intros Hname Hpre Hlen Hs.
  pose proof (startswith_length _ _ Hpre) as Hle.
  apply startswith_firstn in Hpre. revert Hpre Hs.
  destruct Hname as [[= <- <-] | [[= <- <-] | [[= <- <-] | []]]];
    cbn [List.length lit] in Hle;
    change (List.length (lit "--stream-name")) with 13 in Hle;
    change (List.length (lit "--shard-id")) with 10 in Hle;
    change (List.length (lit "--region")) with 8 in Hle;
    generalize dependent (List.length abbr); intros k;
    do 14 (destruct k as [| k]; [
      intros; try lia; subst abbr; try (now exfalso);
      split; reflexivity |]); intros; lia.
Qed.

(** X14.  Flags may be abbreviated.  Behind a command line the parser
    accepts, any prefix of a flag that is longer than [--] and is not
    the ambiguous [--s], followed by a value that does not start with a
    dash, is read as that flag with that value. *)
Theorem abbreviated_flag_is_accepted
    (argv : list pystr) (ns : Argparse.Namespace)
    (name : string) (d : Argparse.dest) (abbr value : pystr) :
  Argparse.parse_args argv = Argparse.Parsed ns ->
  In (name, d) flags ->
  PyStr.startswith (lit name) abbr = true ->
  2 < List.length abbr ->
  abbr <> lit "--s" ->
  plain (Some value) = true ->
  Argparse.parse_args (argv ++ [abbr; value]) =
  Argparse.Parsed (Argparse.setattr ns d (PyStr value)).
Proof.
  intros Hparsed Hname Hpre Hlen Hs Hplain.
  destruct (@parsed_marks argv ns Hparsed) as [marks [Hmarks [Hstop Hconsume]]].
  destruct (@abbreviation_parses name d abbr Hname Hpre Hlen Hs) as [Hdd Hopt].
  unfold Argparse.parse_args.
  rewrite (@classify_app argv _ marks Hmarks Hstop).
  rewrite (@classify_option abbr _ _ _ _ Hdd Hopt).
  rewrite (classify_argument value _ Hplain).
  cbn [Argparse.classify option_map].
  rewrite (@consume_parsed_app marks _ _ ns _ Hconsume).
  now rewrite consume_store.
Qed.

(** X14 at [--stream orders]. *)
Lemma abbreviated_flag_witness :
  Argparse.parse_args ([] ++ [lit "--stream"; lit "orders"]) =
  Argparse.Parsed
    (Argparse.setattr Argparse.empty_namespace Argparse.StreamName
                      (PyStr (lit "orders"))).
Proof.
  apply (@abbreviated_flag_is_accepted
           [] Argparse.empty_namespace "--stream-name" Argparse.StreamName
           (lit "--stream") (lit "orders")).
  - reflexivity.
  - simpl. tauto.
  - reflexivity.
  - simpl. lia.
  - discriminate.
  - reflexivity.
Defined.

(* ===================================================================== *)
(** * Further properties of the output stream *)
(* ===================================================================== *)

Lemma scalars_writable (s : pystr) :
  forallb scalar s = true -> writable utf8_stdout s = true.
Proof.
  unfold writable. intros Hs. apply forallb_forall. intros c Hc.
  eapply forallb_forall in Hs; [| exact Hc].
  unfold encodable. cbn [extended utf8_stdout]. rewrite Hs.
  apply orb_true_r.
Qed.

Lemma decoded_writable (r : KinesisRecord) :
  writable utf8_stdout (message_of r) = true.
Proof.
  unfold message_of. destruct (Utf8.decode (Data r)) as [s |] eqn:Hdec;
    [| reflexivity].
  apply scalars_writable. apply decode_to_encode in Hdec.
  unfold encode in Hdec. now destruct (forallb scalar s).
Qed.

(** X15.  A shard id with a character standard output cannot encode
    stops the run at the first record of a batch that is not empty: the
    header and the separator are printed, no data row is, and the run
    ends with [UnicodeEncodeError], or with [UnicodeDecodeError] when the
    payload of that record is ill-formed, as the payload is decoded
    before the row is printed. *)
Theorem unwritable_shard_id_stops_at_first_row
    (stdout : TextIO) (boto3 : Boto3) (args : Argparse.Namespace)
    (cursor : pystr) (limit : Z) (out : GetRecordsOutput) (sid : pystr)
    (r : KinesisRecord) (rest : list KinesisRecord) :
  In (EvCall (ReqGetRecords cursor limit) (Returned (RetRecords out)))
     (trace (main stdout boto3 args)) ->
  Argparse.shard_id args = PyStr sid ->
  writable stdout sid = false ->
  Records out = r :: rest ->
  printed (trace (main stdout boto3 args)) = [header_row; separator_row] /\
  outcome (main stdout boto3 args) =
  inl (if Utf8.valid (Data r) then UnicodeEncodeError else UnicodeDecodeError).
Proof.
  intros Hin Hsid Hw Hrecords.
  destruct (fetched_shape _ _ _ _ _ _ Hin) as [it [_ [_ Hshape]]].
  unfold trace, outcome. rewrite Hshape, Hsid, Hrecords.
  cbn [fst snd rows_printed].
  assert (Hrow : row_out stdout (PyStr sid) r =
                 inl (if Utf8.valid (Data r)
                      then UnicodeEncodeError else UnicodeDecodeError)).
  { destruct (Utf8.valid (Data r)) eqn:Hv.
    - now rewrite (row_out_valid stdout sid r Hv), Hw.
    - now apply row_out_invalid. }
  rewrite Hrow. cbn [fst snd]. rewrite printed_fetched. split; reflexivity.
Qed.

(** X15 at a shard id with the lone surrogate U+DC80, on a UTF-8
    output. *)
Lemma unwritable_shard_id_witness :
  printed (trace (main utf8_stdout
                       (sample_boto3 [sample_record "4956" "hello"])
                       {| Argparse.stream_name := PyStr (lit "orders");
                          Argparse.shard_id := PyStr [0xDC80%N];
                          Argparse.region := PyStr (lit "us-east-1") |})) =
  [header_row; separator_row] /\
  outcome (main utf8_stdout (sample_boto3 [sample_record "4956" "hello"])
                {| Argparse.stream_name := PyStr (lit "orders");
                   Argparse.shard_id := PyStr [0xDC80%N];
                   Argparse.region := PyStr (lit "us-east-1") |}) =
  inl UnicodeEncodeError.
Proof.
  apply (@unwritable_shard_id_stops_at_first_row utf8_stdout
           (sample_boto3 [sample_record "4956" "hello"])
           {| Argparse.stream_name := PyStr (lit "orders");
              Argparse.shard_id := PyStr [0xDC80%N];
              Argparse.region := PyStr (lit "us-east-1") |}
           (lit "abc123") 200%Z
           {| Records := [sample_record "4956" "hello"];
              NextShardIterator := Some (lit "def456");
              MillisBehindLatest := 0 |}
           [0xDC80%N] (sample_record "4956" "hello") []).
  - vm_compute. right. right. left. reflexivity.
  - reflexivity.
  - reflexivity.
  - reflexivity.
Defined.

(** X16.  On a UTF-8 output no payload stops the run: a payload that
    decodes holds scalar values only, and UTF-8 encodes them all.  When
    the shard id and the sequence numbers hold scalar values too and the
    payloads are well-formed, the run ends normally with one row for
    each record. *)
Theorem utf8_output_takes_every_payload
    (boto3 : Boto3) (args : Argparse.Namespace)
    (cursor : pystr) (limit : Z) (out : GetRecordsOutput) (sid : pystr) :
  In (EvCall (ReqGetRecords cursor limit) (Returned (RetRecords out)))
     (trace (main utf8_stdout boto3 args)) ->
  Argparse.shard_id args = PyStr sid ->
  Forall (fun r => Utf8.valid (Data r) = true) (Records out) ->
  forallb scalar sid = true ->
  Forall (fun r => forallb scalar (SequenceNumber r) = true) (Records out) ->
  printed (trace (main utf8_stdout boto3 args)) =
  header_row :: separator_row ::
  List.map (fun r => table_row sid (SequenceNumber r) (message_of r))
           (Records out) /\
  outcome (main utf8_stdout boto3 args) = inr tt.
Proof.
  intros Hin Hsid Hvalid Hscalar Hseq.
  destruct (fetched_shape _ _ _ _ _ _ Hin) as [it [_ [_ Hshape]]].
  assert (Hshow : Forall (shows_writable utf8_stdout) (Records out)).
  { eapply Forall_impl; [| exact Hseq]. intros r Hr.
    split; [now apply scalars_writable | apply decoded_writable]. }
  unfold trace, outcome.
  rewrite Hshape, Hsid,
    (@rows_printed_valid utf8_stdout sid _ Hvalid
       (scalars_writable _ Hscalar) Hshow).
  cbn [fst snd]. rewrite printed_fetched. now split.
Qed.

(** X16 at a batch of two records, the second with a euro sign. *)
Lemma utf8_output_witness :
  printed (trace (main utf8_stdout
                       (sample_boto3 [sample_record "4956" "hello";
                                      euro_record "4957"])
                       sample_args)) =
  header_row :: separator_row ::
  List.map (fun r => table_row (lit "shardId-0001") (SequenceNumber r)
                               (message_of r))
           [sample_record "4956" "hello"; euro_record "4957"] /\
  outcome (main utf8_stdout (sample_boto3 [sample_record "4956" "hello";
                                           euro_record "4957"])
                sample_args) = inr tt.
Proof.
  apply (@utf8_output_takes_every_payload
           (sample_boto3 [sample_record "4956" "hello"; euro_record "4957"])
           sample_args (lit "abc123") 200%Z
           {| Records := [sample_record "4956" "hello"; euro_record "4957"];
              NextShardIterator := Some (lit "def456");
              MillisBehindLatest := 0 |}
           (lit "shardId-0001")).
  - vm_compute. right. right. left. reflexivity.
  - reflexivity.
  - repeat constructor.
  - reflexivity.
  - repeat constructor.
Defined.
